(** * The Shaka provider of the vidstack player, embedded and verified

    The provider wraps the [shaka-player] library for the vidstack media
    player: [ShakaLibLoader] finds the library's player constructor,
    [ShakaController] builds a player with it and wires the player's events
    to the host, [ShakaProvider] ties both to the host's provider interface
    and [ShakaProviderLoader] decides whether the provider applies.

    The embedding is shallow.  The private fields of the TypeScript classes
    are the fields of one [World] record; a method is a computation in the
    monad [M], which threads the world and can throw.  Calls that leave the
    provider (to the shaka library, to the host player, to the host's list
    of qualities, to callbacks of the user) are appended to the world's
    [trace] in the order in which they are made.  What the provider reads
    from its surroundings (build flags, helpers of other packages, the
    state of the host's qualities list, the tracks of a player) is an
    input: a method of the class [Platform] or a field of [Host] and
    [Player].

    Left out on purpose: writes to [ctx.logger], which the source makes
    under [__DEV__] only and which reach neither the host nor the library;
    and the scheduling of [async] functions, whose steps run here in program
    order (nothing in these classes runs between two of them). *)

From stdpp Require Import base option list strings gmap pretty.

#[local] Set Warnings "-register-all".
#[local] Open Scope string_scope.
#[local] Open Scope Z_scope.
#[local] Open Scope list_scope.

(** ** Values that cross the boundary *)

(** A constructor function of the library ([typeof shaka.Player]), known by
    its identity only. *)
Inductive Ctor := CtorRef (name : string).

(** The host's [<video>] element. *)
Inductive Video := VideoElement (name : string).

(** What JavaScript code throws, or a promise rejects with. *)
Inductive Thrown :=
| TypeError
| ReferenceError
| Error (message : string)
| Rejection (reason : string).

#[global] Instance Thrown_eq_dec : EqDecision Thrown.
Proof. solve_decision. Defined.

(** A function given to [onInstance]: two functions are told apart by
    their identity, and a call either returns or throws. *)
Record Callback := {
  callback_name : string;
  callback_throws : option Thrown;
}.

#[global] Instance Callback_eq_dec : EqDecision Callback.
Proof. solve_decision. Defined.

(** Players are numbered in the order in which [new ctor()] builds them. *)
Abbreviation InstanceId := nat.

(** An [Error] object, as far as the provider looks at it. *)
Record ErrorObject := { error_message : string }.

(** A field that the code compares with [null] itself. *)
Inductive Nullable (A : Type) :=
| IsNull
| IsUndefined
| IsValue (a : A).
Arguments IsNull {A}.
Arguments IsUndefined {A}.
Arguments IsValue {A} a.

#[global] Instance Nullable_eq_dec {A} `{EqDecision A} : EqDecision (Nullable A).
Proof. solve_decision. Defined.

(** [x ?? d] *)
Definition value_or {A} (d : A) (x : Nullable A) : A :=
  match x with
  | IsValue a => a
  | IsNull | IsUndefined => d
  end.

(** [shaka.extern.Track], with the fields the provider reads.  [None] is a
    nullish field; of the height the code asks whether it is [null]. *)
Record Track := {
  track_id : option Z;
  track_width : option Z;
  track_height : Nullable Z;
  track_bandwidth : option Z;
  track_videoCodec : option string;
}.

(** The quality object that [#onTracksChanged] builds for the host. *)
Record VideoQuality := {
  quality_id : string;
  quality_width : Z;
  quality_height : Z;
  quality_bitrate : Z;
  quality_codec : option string;
  quality_index : nat;
}.

(** [Src] of the host: [src] is a string (a URL) or something else. *)
Inductive SrcValue := SrcString (url : string) | SrcObject.
Record Src := { src_src : SrcValue; src_type : string }.

Definition isString_src (s : Src) : option string :=
  match src_src s with SrcString url => Some url | SrcObject => None end.

(** A configuration object ([shaka.extern.PlayerConfiguration], partial):
    property names to values. *)
Inductive CfgVal :=
| CBool (b : bool)
| CNum (z : Z)
| CStr (s : string)
| CObj (props : gmap string CfgVal).

Abbreviation Config := (gmap string CfgVal).

(** [{...o}]: a new object that receives the own properties of [o] one by
    one. *)
Definition spread (o : Config) : Config :=
  map_fold (λ k v acc, <[k:=v]> acc) ∅ o.

(** ** events.ts *)

Inductive ShakaLibEventName :=
| ABR_STATUS_CHANGED
| ERROR
| TRACKS_CHANGED
| LOADED
| MANIFEST_UPDATED
| VARIANT_CHANGED
| ADAPTATION.

(** The string each member of the enum stands for. *)
Definition event_name (n : ShakaLibEventName) : string :=
  match n with
  | ABR_STATUS_CHANGED => "abrstatuschanged"
  | ERROR => "error"
  | TRACKS_CHANGED => "trackschanged"
  | LOADED => "loaded"
  | MANIFEST_UPDATED => "manifestupdated"
  | VARIANT_CHANGED => "variantchanged"
  | ADAPTATION => "adaptation"
  end.

(** [Object.values(ShakaLibEventName)]: the values in declaration order. *)
Definition ShakaLibEventName_values : list string :=
  event_name <$>
    [ABR_STATUS_CHANGED; ERROR; TRACKS_CHANGED; LOADED; MANIFEST_UPDATED;
     VARIANT_CHANGED; ADAPTATION].

(** [shaka.util.Error], as far as the provider looks at it. *)
Record ShakaError := { shaka_error_message : string }.

(** The event objects of the interfaces [ShakaLib...Event]. *)
Inductive ShakaLibEventValues :=
| AbrStatusChangedEvent (newStatus : bool)
| ErrorEvent (detail : ShakaError)
| TracksChangedEvent
| LoadedEvent
| ManifestUpdatedEvent (isLive : bool)
| VariantChangedEvent (oldTrack newTrack : option Track)
| AdaptationChangedEvent (oldTrack newTrack : option Track).

(** [value.type] *)
Definition event_type (value : ShakaLibEventValues) : string :=
  match value with
  | AbrStatusChangedEvent _ => event_name ABR_STATUS_CHANGED
  | ErrorEvent _ => event_name ERROR
  | TracksChangedEvent => event_name TRACKS_CHANGED
  | LoadedEvent => event_name LOADED
  | ManifestUpdatedEvent _ => event_name MANIFEST_UPDATED
  | VariantChangedEvent _ _ => event_name VARIANT_CHANGED
  | AdaptationChangedEvent _ _ => event_name ADAPTATION
  end.

(** [event.isLive]; a property the object does not have reads as
    [undefined], which is falsy. *)
Definition event_isLive (value : ShakaLibEventValues) : bool :=
  match value with ManifestUpdatedEvent isLive => isLive | _ => false end.

(** [event.newTrack]; [None] is [null] or [undefined]. *)
Definition event_newTrack (value : ShakaLibEventValues) : option Track :=
  match value with
  | VariantChangedEvent _ newTrack | AdaptationChangedEvent _ newTrack => newTrack
  | _ => None
  end.

(** ** DOM events and the calls recorded in the trace *)

Inductive Detail :=
| NoDetail
| DetailEvent (value : ShakaLibEventValues)
| DetailInstance (i : InstanceId)
| DetailCtor (c : Ctor)
| DetailError (e : ErrorObject).

(** [new DOMEvent(type, { detail, trigger })] *)
Inductive DOMEvent :=
| mkDOMEvent (type : string) (detail : Detail) (trigger : option DOMEvent).

Definition dom_type (ev : DOMEvent) : string :=
  match ev with mkDOMEvent type _ _ => type end.
Definition dom_detail (ev : DOMEvent) : Detail :=
  match ev with mkDOMEvent _ detail _ => detail end.
Definition dom_trigger (ev : DOMEvent) : option DOMEvent :=
  match ev with mkDOMEvent _ _ trigger => trigger end.

(** The second argument of [ctx.notify]. *)
Inductive NotifyDetail :=
| NotifyValue (s : string)
| NotifyError (message : string) (code : Z) (error : option ErrorObject)
| NotifyProvider.

Inductive Effect :=
(* the shaka library *)
| PolyfillInstallAll
| NewPlayer (c : Ctor) (i : InstanceId)
| Attach (i : InstanceId) (v : option Video)
| Configure (i : InstanceId) (cfg : Config)
| SelectVariantTrack (i : InstanceId) (t : Track)
| LoadUrl (i : InstanceId) (url : string)
| Destroy (i : InstanceId)
(* the user's callbacks *)
| InstanceCallback (cb : Callback) (i : InstanceId)
(* the host *)
| PlayerDispatch (ev : DOMEvent)
| Notify (type : string) (detail : NotifyDetail) (trigger : option DOMEvent)
| QualitiesSetAuto (auto : bool) (trigger : option DOMEvent)
| QualitiesAdd (q : VideoQuality) (trigger : option DOMEvent)
| QualitiesSelect (q : option VideoQuality) (selected : bool) (trigger : option DOMEvent)
| MediaDispatch (v : Video) (ev : DOMEvent)
(* the provider's base class, [VideoProvider] *)
| SuperSetup
| RemoveSource
| SetPreload (preload : string)
| AppendSource (src : Src)
| SetCurrentSrc (src : Src)
(* utils/network *)
| Preconnect (url : string).

(** ** types.ts: the forms a library can take *)

(** [value.prototype], as [isShakaConstructor] tests it: falsy, the
    [Function] constructor itself, or any other object. *)
Inductive Prototype := ProtoFalsy | ProtoFunction | ProtoObject.

(** The default export of a module that a loader resolved to: a truthy
    value that can be used as the constructor, and that may have a
    [Player] property (then it is the [shaka] namespace). *)
Record ExportValue := {
  export_self : Ctor;
  export_Player : option Ctor;
}.

(** What [await loader()] gives: it throws (the value is not callable, the
    call throws or the promise rejects), or resolves to [undefined]
    ([None]) or to a module object whose [default] is falsy ([Some None])
    or a value. *)
Inductive CallOutcome :=
| CallThrows (t : Thrown)
| CallResolves (module : option (option ExportValue)).

(** A library that is an object or a function.  [value_self] is the value
    itself, seen as a constructor; [value_Player] is [Some p] when
    ['Player' in value] holds and [value.Player] is [p]. *)
Record LibValue := {
  value_self : Ctor;
  value_prototype : Prototype;
  value_Player : option Ctor;
  value_call : CallOutcome;
}.

(** [ShakaLibrary]: a constructor, a namespace, a loader of either, a
    string, or [undefined]. *)
Inductive ShakaLibrary :=
| LibUndefined
| LibString (src : string)
| LibObject (value : LibValue).

(** ** The surroundings *)

(** The global object [shaka], as far as the provider reads it: its
    [Player], when that is a function. *)
Record ShakaGlobal := { global_Player : option Ctor }.

(** What the provider takes from the build, from [maverick.js/std], from
    other packages of the player and from the browser.  None of it is
    defined in the provider's files. *)
Class Platform := {
  __DEV__ : bool;
  __SERVER__ : bool;
  (* maverick.js/std *)
  camelToKebabCase : string → string;
  (* utils/error *)
  coerceToError : Thrown → ErrorObject;
  (* utils/network: [None] when the script loaded *)
  loadScript : string → option Thrown;
  (* the global [shaka], which is [window.shaka]; [None] when it is not
     defined *)
  window_shaka : option ShakaGlobal;
  (* [window.shaka.Player.isBrowserSupported()] *)
  isBrowserSupported : bool;
  (* utils/support *)
  isHLSSupported : bool;
  isDASHSupported : bool;
  (* utils/mime *)
  isHLSSrc : Src → bool;
  isDASHSrc : Src → bool;
}.

(** [window.shaka.Player], when [window.shaka] is defined and its
    [Player] is a function. *)
Definition window_shaka_Player `{Platform} : option Ctor :=
  window_shaka ≫= global_Player.

(** The bound methods of the controller that are handed out as listeners. *)
Inductive Handler :=
| DispatchShakaEvent
| OnError
| OnManifestUpdated
| OnLoaded
| OnTracksChanged
| OnVariantChanged.

Inductive QualitiesHook := EnableAutoQuality.
Inductive ChangeListener := OnUserQualityChange.

(** The host ([MediaContext]): what the provider reads from it, and the
    two places where the controller leaves a function of its own. *)
Record Host := {
  state_canPlay : bool;
  state_source : option Src;
  qualities_auto : bool;
  qualities_selected : option VideoQuality;
  qualities_getById : string → option VideoQuality;
  qualities_enableAuto : option QualitiesHook;
  qualities_onChange : list ChangeListener;
}.

(** A player of the library: the constructor that built it, the listeners
    on it in the order of their registration, the element it is attached
    to, and its variant tracks. *)
Record Player := {
  player_ctor : Ctor;
  player_listeners : list (string * Handler);
  player_media : option Video;
  player_variantTracks : list Track;
}.

(** The private fields of [ShakaProvider] and [ShakaController], the
    players built so far, the host, and the calls made so far. *)
Record World := {
  provider_ctor : option Ctor;
  provider_library : ShakaLibrary;
  controller_video : option Video;
  controller_instance : option InstanceId;
  controller_callbacks : list Callback;
  controller_config : Config;
  players : list Player;
  host : Host;
  trace : list Effect;
}.

Definition set_provider_ctor (c : option Ctor) (w : World) : World :=
  {| provider_ctor := c; provider_library := provider_library w;
     controller_video := controller_video w;
     controller_instance := controller_instance w;
     controller_callbacks := controller_callbacks w;
     controller_config := controller_config w;
     players := players w; host := host w; trace := trace w |}.

Definition set_provider_library (l : ShakaLibrary) (w : World) : World :=
  {| provider_ctor := provider_ctor w; provider_library := l;
     controller_video := controller_video w;
     controller_instance := controller_instance w;
     controller_callbacks := controller_callbacks w;
     controller_config := controller_config w;
     players := players w; host := host w; trace := trace w |}.

Definition set_controller_instance (i : option InstanceId) (w : World) : World :=
  {| provider_ctor := provider_ctor w; provider_library := provider_library w;
     controller_video := controller_video w;
     controller_instance := i;
     controller_callbacks := controller_callbacks w;
     controller_config := controller_config w;
     players := players w; host := host w; trace := trace w |}.

Definition set_controller_callbacks (cbs : list Callback) (w : World) : World :=
  {| provider_ctor := provider_ctor w; provider_library := provider_library w;
     controller_video := controller_video w;
     controller_instance := controller_instance w;
     controller_callbacks := cbs;
     controller_config := controller_config w;
     players := players w; host := host w; trace := trace w |}.

Definition set_controller_config (cfg : Config) (w : World) : World :=
  {| provider_ctor := provider_ctor w; provider_library := provider_library w;
     controller_video := controller_video w;
     controller_instance := controller_instance w;
     controller_callbacks := controller_callbacks w;
     controller_config := cfg;
     players := players w; host := host w; trace := trace w |}.

Definition set_players (ps : list Player) (w : World) : World :=
  {| provider_ctor := provider_ctor w; provider_library := provider_library w;
     controller_video := controller_video w;
     controller_instance := controller_instance w;
     controller_callbacks := controller_callbacks w;
     controller_config := controller_config w;
     players := ps; host := host w; trace := trace w |}.

Definition set_host (h : Host) (w : World) : World :=
  {| provider_ctor := provider_ctor w; provider_library := provider_library w;
     controller_video := controller_video w;
     controller_instance := controller_instance w;
     controller_callbacks := controller_callbacks w;
     controller_config := controller_config w;
     players := players w; host := h; trace := trace w |}.

Definition set_trace (t : list Effect) (w : World) : World :=
  {| provider_ctor := provider_ctor w; provider_library := provider_library w;
     controller_video := controller_video w;
     controller_instance := controller_instance w;
     controller_callbacks := controller_callbacks w;
     controller_config := controller_config w;
     players := players w; host := host w; trace := t |}.

Definition set_player_listeners (ls : list (string * Handler)) (p : Player) : Player :=
  {| player_ctor := player_ctor p; player_listeners := ls;
     player_media := player_media p;
     player_variantTracks := player_variantTracks p |}.

Definition set_player_media (v : option Video) (p : Player) : Player :=
  {| player_ctor := player_ctor p; player_listeners := player_listeners p;
     player_media := v;
     player_variantTracks := player_variantTracks p |}.

Definition set_player_variantTracks (ts : list Track) (p : Player) : Player :=
  {| player_ctor := player_ctor p; player_listeners := player_listeners p;
     player_media := player_media p;
     player_variantTracks := ts |}.

Definition set_qualities_enableAuto (f : option QualitiesHook) (h : Host) : Host :=
  {| state_canPlay := state_canPlay h; state_source := state_source h;
     qualities_auto := qualities_auto h;
     qualities_selected := qualities_selected h;
     qualities_getById := qualities_getById h;
     qualities_enableAuto := f;
     qualities_onChange := qualities_onChange h |}.

Definition set_qualities_onChange (ls : list ChangeListener) (h : Host) : Host :=
  {| state_canPlay := state_canPlay h; state_source := state_source h;
     qualities_auto := qualities_auto h;
     qualities_selected := qualities_selected h;
     qualities_getById := qualities_getById h;
     qualities_enableAuto := qualities_enableAuto h;
     qualities_onChange := ls |}.

(** ** The monad of methods

    A method takes the world, and returns or throws; in both cases the
    world it leaves behind is kept, as calls made before a throw are not
    undone. *)

Inductive Outcome (A : Type) :=
| Returned (a : A)
| Threw (t : Thrown).
Arguments Returned {A} a.
Arguments Threw {A} t.

Definition M (A : Type) : Type := World → Outcome A * World.

#[global] Instance M_ret : MRet M := λ A a w, (Returned a, w).

#[global] Instance M_bind : MBind M := λ A B f m w,
  match m w with
  | (Returned a, w') => f a w'
  | (Threw t, w') => (Threw t, w')
  end.

Definition throw {A} (t : Thrown) : M A := λ w, (Threw t, w).

(** [try { body } catch (err) { handler(err) }] *)
Definition try_catch {A} (body : M A) (handler : Thrown → M A) : M A := λ w,
  match body w with
  | (Returned a, w') => (Returned a, w')
  | (Threw t, w') => handler t w'
  end.

Definition gets {A} (f : World → A) : M A := λ w, (Returned (f w), w).
Definition modify (f : World → World) : M unit := λ w, (Returned tt, f w).

(** A call that leaves the provider. *)
Definition emit (e : Effect) : M unit :=
  modify (λ w, set_trace (trace w ++ [e]) w).

(** [for (const x of xs) body(x)] *)
Fixpoint for_of {A} (xs : list A) (body : A → M unit) : M unit :=
  match xs with
  | [] => mret tt
  | x :: xs' => body x;; for_of xs' body
  end.

(** [xs.forEach((item, index) => body(item, index))], from [index] on. *)
Fixpoint forEach_from {A} (index : nat) (xs : list A) (body : A → nat → M unit) : M unit :=
  match xs with
  | [] => mret tt
  | x :: xs' => body x index;; forEach_from (S index) xs' body
  end.

Definition forEach {A} (xs : list A) (body : A → nat → M unit) : M unit :=
  forEach_from 0 xs body.

(** [return;] in a method without a result. *)
Definition skip : M unit := mret tt.

(** The world a computation leaves, and what it returned or threw. *)
Definition exec {A} (m : M A) (w : World) : World := (m w).2.
Definition result {A} (m : M A) (w : World) : Outcome A := (m w).1.

(** ** The library's player, as the controller uses it *)

(** [new ctor()]: the next player, with no listener, no element and no
    track. *)
Definition new_player (ctor : Ctor) : M InstanceId := λ w,
  let i := length (players w) in
  let p := {| player_ctor := ctor; player_listeners := [];
              player_media := None; player_variantTracks := [] |} in
  (Returned i, set_trace (trace w ++ [NewPlayer ctor i]) (set_players (players w ++ [p]) w)).

Definition update_player (i : InstanceId) (f : Player → Player) : M unit :=
  modify (λ w, set_players (alter f i (players w)) w).

(** [eventManager.listen(target, type, listener)] *)
Definition listen (target : InstanceId) (type : string) (listener : Handler) : M unit :=
  update_player target (λ p, set_player_listeners (player_listeners p ++ [(type, listener)]) p).

(** [instance.attach(video)] *)
Definition attach (i : InstanceId) (video : option Video) : M unit :=
  emit (Attach i video);;
  update_player i (set_player_media video).

(** [instance.configure(config)] *)
Definition configure (i : InstanceId) (config : Config) : M unit :=
  emit (Configure i config).

(** [instance.getVariantTracks()] *)
Definition getVariantTracks (i : InstanceId) : M (list Track) :=
  gets (λ w, from_option player_variantTracks [] (players w !! i)).

(** [instance.getMediaElement()] *)
Definition getMediaElement (i : InstanceId) : M (option Video) :=
  gets (λ w, players w !! i ≫= player_media).

(** [callback(instance)], for a function of the user: the call is
    recorded, and it returns or throws. *)
Definition call_callback (callback : Callback) (i : InstanceId) : M unit :=
  emit (InstanceCallback callback i);;
  match callback_throws callback with
  | Some t => throw t
  | None => skip
  end.

(** ** shaka.ts *)

Module ShakaController.
Section controller.
Context `{Platform}.

Definition toDOMEventType (type : string) : string :=
  "shaka-" +:+ camelToKebabCase type.

Definition createDOMEvent (value : ShakaLibEventValues) : DOMEvent :=
  mkDOMEvent (toDOMEventType (event_type value)) (DetailEvent value) None.

(** [ctx.player] is there by the type of [MediaContext], and [setup]
    has used it without a guard before any listener can run. *)
Definition dispatchShakaEvent (value : ShakaLibEventValues) : M unit :=
  emit (PlayerDispatch (createDOMEvent value)).

(** Logs under [__DEV__], nothing else. *)
Definition onError (event : ShakaLibEventValues) : M unit :=
  skip.

Definition onManifestUpdated (event : ShakaLibEventValues) : M unit :=
  let isLive := event_isLive event in
  let trigger := createDOMEvent event in
  emit (QualitiesSetAuto true (Some trigger));;
  emit (Notify "stream-type-change"
          (NotifyValue (if isLive then "live" else "on-demand")) (Some trigger)).

Definition onLoaded (event : ShakaLibEventValues) : M unit :=
  canPlay ← gets (λ w, state_canPlay (host w));
  instance ← gets controller_instance;
  match instance with
  | Some i =>
      if (canPlay : bool) then skip else
      let trigger := createDOMEvent event in
      media ← getMediaElement i;
      match media with
      | Some v => emit (MediaDispatch v (mkDOMEvent "canplay" NoDetail (Some trigger)))
      | None => skip
      end
  | None => skip
  end.

(** [item.height !== null] *)
Definition has_height (item : Track) : bool :=
  match track_height item with
  | IsNull => false
  | IsUndefined | IsValue _ => true
  end.

(** The object literal in [#onTracksChanged]. *)
Definition quality_of (item : Track) (index : nat) : VideoQuality :=
  {| quality_id := default ("dash-bitrate-" +:+ pretty index) (pretty <$> track_id item);
     quality_width := default 0 (track_width item);
     quality_height := value_or 0 (track_height item);
     quality_bitrate := default 0 (track_bandwidth item);
     quality_codec := track_videoCodec item;
     quality_index := index |}.

Definition onTracksChanged (event : ShakaLibEventValues) : M unit :=
  instance ← gets controller_instance;
  match instance with
  | None => throw TypeError
  | Some i =>
      variants ← getVariantTracks i;
      let trigger := createDOMEvent event in
      forEach (filter (λ item, has_height item) variants) (λ item index,
        let quality := quality_of item index in
        emit (QualitiesAdd quality (Some trigger)))
  end.

Definition onVariantChanged (event : ShakaLibEventValues) : M unit :=
  match event_newTrack event with
  | Some newTrack =>
      match track_id newTrack with
      | None => throw TypeError
      | Some id =>
          quality ← gets (λ w, qualities_getById (host w) (pretty id));
          let trigger := createDOMEvent event in
          emit (QualitiesSelect quality true (Some trigger))
      end
  | None => skip
  end.

(** [{ abr: { enabled } }] *)
Definition abr_enabled (enabled : bool) : Config :=
  {[ "abr" := CObj {[ "enabled" := CBool enabled ]} ]}.

Definition enableAutoQuality : M unit :=
  instance ← gets controller_instance;
  match instance with
  | Some i => configure i (abr_enabled true)
  | None => skip
  end.

Definition disableAutoQuality : M unit :=
  instance ← gets controller_instance;
  match instance with
  | Some i => configure i (abr_enabled false)
  | None => skip
  end.

(** [t.id?.toString() === qualities.selected?.id] *)
Definition same_id (t : Track) (selected : option VideoQuality) : bool :=
  bool_decide (pretty <$> track_id t = quality_id <$> selected).

Definition onUserQualityChange : M unit :=
  instance ← gets controller_instance;
  auto ← gets (λ w, qualities_auto (host w));
  selected ← gets (λ w, qualities_selected (host w));
  match instance with
  | None => skip
  | Some i =>
      if auto || negb (bool_decide (is_Some selected)) then skip else
      disableAutoQuality;;
      tracks ← getVariantTracks i;
      selected' ← gets (λ w, qualities_selected (host w));
      match List.find (λ t, same_id t selected') tracks with
      | None => skip
      | Some track => emit (SelectVariantTrack i track)
      end
  end.

(** The [EventManager] that [setup] makes keeps the bindings for a later
    release, which this class never asks for; what counts is the listener
    that [listen] puts on the player.  [shaka] is the global object:
    where it is not defined, the first statement throws a
    [ReferenceError]. *)
Definition setup (ctor : Ctor) : M unit :=
  match window_shaka with
  | None => throw ReferenceError
  | Some _ => skip
  end;;
  emit PolyfillInstallAll;;
  i ← new_player ctor;
  modify (set_controller_instance (Some i));;
  for_of ShakaLibEventName_values (λ event, listen i event DispatchShakaEvent);;
  listen i (event_name ERROR) OnError;;
  callbacks ← gets controller_callbacks;
  for_of callbacks (λ callback, call_callback callback i);;
  video ← gets controller_video;
  attach i video;;
  emit (PlayerDispatch (mkDOMEvent "shaka-instance" (DetailInstance i) None));;
  config ← gets controller_config;
  configure i (spread config);;
  listen i (event_name MANIFEST_UPDATED) OnManifestUpdated;;
  listen i (event_name LOADED) OnLoaded;;
  listen i (event_name TRACKS_CHANGED) OnTracksChanged;;
  listen i (event_name VARIANT_CHANGED) OnVariantChanged;;
  listen i (event_name ADAPTATION) OnVariantChanged;;
  modify (λ w, set_host (set_qualities_enableAuto (Some EnableAutoQuality) (host w)) w);;
  modify (λ w, set_host (set_qualities_onChange
                           (qualities_onChange (host w) ++ [OnUserQualityChange]) (host w)) w).

(** [#callbacks] is a [Set]: adding a member again changes nothing, and
    members are visited in the order in which they came. *)
Definition onInstance (callback : Callback) : M unit :=
  modify (λ w,
    if bool_decide (callback ∈ controller_callbacks w) then w
    else set_controller_callbacks (controller_callbacks w ++ [callback]) w).

(** The function [onInstance] returns. *)
Definition onInstance_dispose (callback : Callback) : M unit :=
  modify (λ w,
    set_controller_callbacks
      (filter (λ c, c ≠ callback) (controller_callbacks w)) w).

Definition loadSource (src : Src) : M unit :=
  match isString_src src with
  | None => skip
  | Some url =>
      instance ← gets controller_instance;
      match instance with
      | Some i => emit (LoadUrl i url)
      | None => skip
      end
  end.

Definition destroy : M unit :=
  instance ← gets controller_instance;
  match instance with
  | Some i => emit (Destroy i)
  | None => skip
  end;;
  modify (set_controller_instance None).

(** A bound method, called. *)
Definition run_handler (h : Handler) (event : ShakaLibEventValues) : M unit :=
  match h with
  | DispatchShakaEvent => dispatchShakaEvent event
  | OnError => onError event
  | OnManifestUpdated => onManifestUpdated event
  | OnLoaded => onLoaded event
  | OnTracksChanged => onTracksChanged event
  | OnVariantChanged => onVariantChanged event
  end.

End controller.
End ShakaController.

(** ** lib-loader.ts *)

Record LoadShakaConstructorCallbacks := {
  callbacks_onLoadStart : option (M unit);
  callbacks_onLoaded : option (Ctor → M unit);
  callbacks_onLoadError : option (Thrown → M unit);
}.

(** [f?.()] and [f?.(x)] *)
Definition call0 (f : option (M unit)) : M unit := default skip f.
Definition call1 {A} (f : option (A → M unit)) (x : A) : M unit :=
  match f with Some g => g x | None => skip end.

(** [value && value.prototype && value.prototype !== Function], for a
    value that is an object or a function. *)
Definition isShakaConstructor (value : LibValue) : bool :=
  match value_prototype value with
  | ProtoObject => true
  | ProtoFalsy | ProtoFunction => false
  end.

Section loaders.
Context `{Platform}.

Definition importShaka (loader : option LibValue)
    (callbacks : LoadShakaConstructorCallbacks) : M (option Ctor) :=
  match loader with
  | None => mret None
  | Some loader =>
      call0 (callbacks_onLoadStart callbacks);;
      if isShakaConstructor loader then
        call1 (callbacks_onLoaded callbacks) (value_self loader);;
        mret (Some (value_self loader))
      else
      (* isShakaNamespace(loader) *)
      match value_Player loader with
      | Some ctor =>
          call1 (callbacks_onLoaded callbacks) ctor;;
          mret (Some ctor)
      | None =>
          try_catch
            (module ← match value_call loader with
                      | CallThrows t => throw t
                      | CallResolves module => mret module
                      end;
             (* (await loader())?.default *)
             match module ≫= id with
             | Some ctor =>
                 (* isShakaNamespace(ctor) *)
                 match export_Player ctor with
                 | Some player =>
                     call1 (callbacks_onLoaded callbacks) player;;
                     mret (Some player)
                 | None =>
                     call1 (callbacks_onLoaded callbacks) (export_self ctor);;
                     mret (Some (export_self ctor))
                 end
             | None =>
                 throw (Error
                   (if __DEV__
                    then "[vidstack] failed importing `shaka-player`. Dynamic import returned invalid object."
                    else EmptyString))
             end)
            (λ err, call1 (callbacks_onLoadError callbacks) err;; mret None)
      end
  end.

Definition loadShakaScript (src : ShakaLibrary)
    (callbacks : LoadShakaConstructorCallbacks) : M (option Ctor) :=
  match src with
  | LibString src =>
      call0 (callbacks_onLoadStart callbacks);;
      try_catch
        (match loadScript src with
         | Some err => throw err
         | None => skip
         end;;
         match window_shaka with
         | None => throw TypeError
         | Some shaka =>
             match global_Player shaka with
             | None =>
                 throw (Error
                   (if __DEV__
                    then "[vidstack] failed loading `shaka-player`. Could not find a valid `Shaka` constructor on window"
                    else EmptyString))
             | Some ctor =>
                 call1 (callbacks_onLoaded callbacks) ctor;;
                 mret (Some ctor)
             end
         end)
        (λ err, call1 (callbacks_onLoadError callbacks) err;; mret None)
  | LibUndefined | LibObject _ => mret None
  end.

End loaders.

Module ShakaLibLoader.
Section lib_loader.
Context `{Platform}.

(** The fields [#lib] and [#callback] are the arguments [lib] and
    [callback] below; [#ctx] is the host of the world. *)

Definition onLoadStart : M unit :=
  emit (PlayerDispatch (mkDOMEvent "shaka-lib-load-start" NoDetail None)).

Definition onLoaded (callback : Ctor → M unit) (ctor : Ctor) : M unit :=
  emit (PlayerDispatch (mkDOMEvent "shaka-lib-loaded" (DetailCtor ctor) None));;
  callback ctor.

Definition onLoadError (e : Thrown) : M unit :=
  let error := coerceToError e in
  emit (PlayerDispatch (mkDOMEvent "shaka-lib-load-error" (DetailError error) None));;
  emit (Notify "error" (NotifyError (error_message error) 4 (Some error)) None).

Definition unsupported_message : string :=
  "[vidstack] `shaka-player` is not supported in this environment".

Definition startLoading (lib : ShakaLibrary) (callback : Ctor → M unit)
    : M (option Ctor) :=
  let callbacks :=
    {| callbacks_onLoadStart := Some onLoadStart;
       callbacks_onLoaded := Some (onLoaded callback);
       callbacks_onLoadError := Some onLoadError |} in
  ctor ← loadShakaScript lib callbacks;
  ctor ← match ctor, lib with
         | None, LibUndefined => importShaka None callbacks
         | None, LibObject value => importShaka (Some value) callbacks
         | _, _ => mret ctor
         end;
  match ctor with
  | None => mret None
  | Some ctor =>
      match window_shaka_Player with
      | None => throw TypeError
      | Some _ =>
          if negb isBrowserSupported then
            let message := unsupported_message in
            emit (PlayerDispatch (mkDOMEvent "shaka-unsupported" NoDetail None));;
            emit (Notify "error" (NotifyError message 4 None) None);;
            mret None
          else mret (Some ctor)
      end
  end.

(** [new ShakaLibLoader(lib, ctx, callback)]: the constructor starts
    [#startLoading] and drops the promise, so neither its value nor its
    rejection reaches the caller. *)
Definition new (lib : ShakaLibrary) (callback : Ctor → M unit) : M unit :=
  λ w, (Returned tt, exec (startLoading lib callback) w).

End lib_loader.
End ShakaLibLoader.

(** ** provider.ts *)

Module ShakaProvider.
Section provider.
Context `{Platform}.

Definition JS_DELIVR_CDN : string := "https://cdn.jsdelivr.net".

Definition default_library : ShakaLibrary :=
  LibString (JS_DELIVR_CDN +:+ "/npm/shaka-player@4.16.0/dist/shaka-player.compiled"
             +:+ (if __DEV__ then ".debug.js" else ".js")).

(** [new ShakaProvider(video, ctx)], with its controller. *)
Definition new (video : option Video) (ctx : Host) : World :=
  {| provider_ctor := None; provider_library := default_library;
     controller_video := video; controller_instance := None;
     controller_callbacks := []; controller_config := ∅;
     players := []; host := ctx; trace := [] |}.

Definition supported : bool := isHLSSupported || isDASHSupported.

Definition type : string := "shaka".
Definition canLiveSync : bool := true.

Definition get_config : M Config := gets controller_config.
Definition set_config (config : Config) : M unit :=
  modify (set_controller_config config).

Definition get_library : M ShakaLibrary := gets provider_library.
Definition set_library (library : ShakaLibrary) : M unit :=
  modify (set_provider_library library).

Definition preconnect : M unit :=
  library ← gets provider_library;
  match library with
  | LibString url => emit (Preconnect url)
  | LibUndefined | LibObject _ => skip
  end.

Definition loadSource (src : Src) (preload : option string) : M unit :=
  match isString_src src with
  | None => emit RemoveSource
  | Some _ =>
      emit (SetPreload (default EmptyString preload));;
      emit (AppendSource src);;
      ShakaController.loadSource src;;
      emit (SetCurrentSrc src)
  end.

(** The function that [setup] gives to the loader. *)
Definition setup_callback (ctor : Ctor) : M unit :=
  modify (set_provider_ctor (Some ctor));;
  ShakaController.setup ctor;;
  emit (Notify "provider-setup" NotifyProvider None);;
  src ← gets (λ w, state_source (host w));
  match src with
  | Some src => loadSource src None
  | None => skip
  end.

Definition setup : M unit :=
  emit SuperSetup;;
  library ← gets provider_library;
  ShakaLibLoader.new library setup_callback.

Definition onInstance (callback : Callback) : M unit :=
  instance ← gets controller_instance;
  match instance with
  | Some i => call_callback callback i
  | None => skip
  end;;
  ShakaController.onInstance callback.

Definition destroy : M unit := ShakaController.destroy.

End provider.
End ShakaProvider.

(** ** loader.ts *)

Module ShakaProviderLoader.
Section provider_loader.
Context `{Platform}.

Definition supported : bool := isHLSSupported.

Definition name : string := "shaka".

Definition canPlay (src : Src) : bool :=
  supported && (isHLSSrc src || isDASHSrc src).

(** [load(context)]; [target] is the field [this.target] of the base
    class.  The result is the provider that was built, or what was
    thrown. *)
Definition load (target : option Video) (context : Host) : Thrown + World :=
  if __SERVER__ then
    inl (Error "[vidstack] can not load shaka provider server-side")
  else if __DEV__ && negb (bool_decide (is_Some target)) then
    inl (Error "[vidstack] `<video>` element was not found - did you forget to include `<media-provider>`?")
  else
    inr (ShakaProvider.new target context).

End provider_loader.
End ShakaProviderLoader.

(** ** What the surroundings do to the provider *)

(** The listeners on the player [i]. *)
Definition listeners_of (i : InstanceId) (w : World) : list (string * Handler) :=
  from_option player_listeners [] (players w !! i).

Section surroundings.
Context `{Platform}.

(** The player [i] dispatches [event]: the listeners registered under
    the event's type are called, in the order of their registration.  A
    listener that throws ends the delivery here; on a player wired by
    [setup] a handler that can throw is the last one for its type, so
    whether the library goes on after a throw makes no difference. *)
Definition fire (i : InstanceId) (event : ShakaLibEventValues) : M unit :=
  listeners ← gets (listeners_of i);
  for_of (filter (λ l, l.1 = event_type event) listeners)
    (λ l, ShakaController.run_handler l.2 event).

(** The host's list of qualities dispatches ['change']. *)
Definition qualities_change : M unit :=
  listeners ← gets (λ w, qualities_onChange (host w));
  for_of listeners (λ l,
    match l with OnUserQualityChange => ShakaController.onUserQualityChange end).

(** The host calls [qualities[QualitySymbol.enableAuto]]. *)
Definition qualities_call_enableAuto : M unit :=
  hook ← gets (λ w, qualities_enableAuto (host w));
  match hook with
  | Some EnableAutoQuality => ShakaController.enableAutoQuality
  | None => skip
  end.

End surroundings.

(** The library gives the player [i] its variant tracks. *)
Definition with_variantTracks (i : InstanceId) (tracks : list Track) (w : World) : World :=
  set_players (alter (set_player_variantTracks tracks) i (players w)) w.

(** The state of the host moves on; what the controller left at the host
    stays. *)
Definition with_host_state (canPlay : bool) (source : option Src) (auto : bool)
    (selected : option VideoQuality) (getById : string → option VideoQuality)
    (w : World) : World :=
  set_host
    {| state_canPlay := canPlay; state_source := source;
       qualities_auto := auto; qualities_selected := selected;
       qualities_getById := getById;
       qualities_enableAuto := qualities_enableAuto (host w);
       qualities_onChange := qualities_onChange (host w) |} w.

(** What can happen to a provider that is set up, one step at a time. *)
Inductive Step :=
| Fires (i : InstanceId) (event : ShakaLibEventValues)
| QualitiesChange
| CallsEnableAuto
| GivesTracks (i : InstanceId) (tracks : list Track)
| HostMoves (canPlay : bool) (source : option Src) (auto : bool)
    (selected : option VideoQuality) (getById : string → option VideoQuality)
| RegistersCallback (callback : Callback)
| LoadsSource (src : Src) (preload : option string).

Section steps.
Context `{Platform}.

Definition step (s : Step) (w : World) : World :=
  match s with
  | Fires i event => exec (fire i event) w
  | QualitiesChange => exec qualities_change w
  | CallsEnableAuto => exec qualities_call_enableAuto w
  | GivesTracks i tracks => with_variantTracks i tracks w
  | HostMoves canPlay source auto selected getById =>
      with_host_state canPlay source auto selected getById w
  | RegistersCallback callback => exec (ShakaProvider.onInstance callback) w
  | LoadsSource src preload => exec (ShakaProvider.loadSource src preload) w
  end.

Definition run (steps : list Step) (w : World) : World :=
  foldl (λ w s, step s w) w steps.

End steps.

(** ** A platform to run examples on *)

Module Demo.

Definition is_upper (c : Ascii.ascii) : bool :=
  let n := Ascii.N_of_ascii c in (65 <=? n)%N && (n <=? 90)%N.
Definition is_lower (c : Ascii.ascii) : bool :=
  let n := Ascii.N_of_ascii c in (97 <=? n)%N && (n <=? 122)%N.
Definition to_lower (c : Ascii.ascii) : Ascii.ascii :=
  if is_upper c then Ascii.ascii_of_N (Ascii.N_of_ascii c + 32) else c.

(** Stands for [camelToKebabCase] of [maverick.js/std]: a hyphen between a
    lower-case letter and the upper-case letter after it, then all in
    lower case. *)
Fixpoint kebab (after_lower : bool) (s : string) : string :=
  match s with
  | EmptyString => EmptyString
  | String c s' =>
      if after_lower && is_upper c
      then String (Ascii.ascii_of_N 45) (String (to_lower c) (kebab false s'))
      else String (to_lower c) (kebab (is_lower c) s')
  end.

Definition message_of (t : Thrown) : string :=
  match t with
  | TypeError => "TypeError"
  | ReferenceError => "ReferenceError"
  | Error message => message
  | Rejection reason => reason
  end.

Definition ends_with (suffix : string) (src : Src) : bool :=
  match isString_src src with
  | Some url =>
      bool_decide (String.substring (String.length url - String.length suffix)
                     (String.length suffix) url = suffix)
  | None => false
  end.

Definition windowPlayer : Ctor := CtorRef "window.shaka.Player".

(** A browser, in a development build, where the script at any URL
    loads and leaves a working [window.shaka.Player]. *)
Definition browser : Platform :=
  {| __DEV__ := true;
     __SERVER__ := false;
     camelToKebabCase := kebab false;
     coerceToError := λ t, {| error_message := message_of t |};
     loadScript := λ _, None;
     window_shaka := Some {| global_Player := Some windowPlayer |};
     isBrowserSupported := true;
     isHLSSupported := true;
     isDASHSupported := true;
     isHLSSrc := ends_with ".m3u8";
     isDASHSrc := ends_with ".mpd" |}.

(** The same browser, but the library finds it unsupported. *)
Definition unsupported_browser : Platform :=
  {| __DEV__ := true;
     __SERVER__ := false;
     camelToKebabCase := kebab false;
     coerceToError := λ t, {| error_message := message_of t |};
     loadScript := λ _, None;
     window_shaka := Some {| global_Player := Some windowPlayer |};
     isBrowserSupported := false;
     isHLSSupported := true;
     isDASHSupported := true;
     isHLSSrc := ends_with ".m3u8";
     isDASHSrc := ends_with ".mpd" |}.

(** Server-side rendering. *)
Definition server : Platform :=
  {| __DEV__ := false;
     __SERVER__ := true;
     camelToKebabCase := kebab false;
     coerceToError := λ t, {| error_message := message_of t |};
     loadScript := λ _, Some (Rejection "no document");
     window_shaka := None;
     isBrowserSupported := false;
     isHLSSupported := false;
     isDASHSupported := false;
     isHLSSrc := ends_with ".m3u8";
     isDASHSrc := ends_with ".mpd" |}.

Definition video : Video := VideoElement "video".

Definition no_quality : string → option VideoQuality := λ _, None.

(** A host that has no source yet and whose list of qualities is empty. *)
Definition ctx : Host :=
  {| state_canPlay := false; state_source := None;
     qualities_auto := false; qualities_selected := None;
     qualities_getById := no_quality;
     qualities_enableAuto := None; qualities_onChange := [] |}.

Definition track (id : option Z) (height : Nullable Z) : Track :=
  {| track_id := id; track_width := Some 1280; track_height := height;
     track_bandwidth := Some 2500000; track_videoCodec := Some "avc1.4d401f" |}.

(** A browser with Media Source Extensions but without what the HLS
    check asks for. *)
Definition dash_only : Platform :=
  {| __DEV__ := false;
     __SERVER__ := false;
     camelToKebabCase := kebab false;
     coerceToError := λ t, {| error_message := message_of t |};
     loadScript := λ _, None;
     window_shaka := Some {| global_Player := Some windowPlayer |};
     isBrowserSupported := true;
     isHLSSupported := false;
     isDASHSupported := true;
     isHLSSrc := ends_with ".m3u8";
     isDASHSrc := ends_with ".mpd" |}.

Definition first : Callback :=
  {| callback_name := "first"; callback_throws := None |}.

Definition second : Callback :=
  {| callback_name := "second"; callback_throws := None |}.

(** A provider that was just built, with two callbacks registered. *)
Definition fresh : World :=
  exec (ShakaProvider.onInstance first;;
        ShakaProvider.onInstance second;;
        ShakaProvider.onInstance first)
    (ShakaProvider.new (H:=browser) (Some video) ctx).

(** The provider after [setup]. *)
Definition ready : World := exec (ShakaProvider.setup (H:=browser)) fresh.

Definition tracks : list Track :=
  [track (Some 3) (IsValue 720); track (Some 4) IsNull; track None (IsValue 1080);
   track (Some 5) IsUndefined].

Definition quality3 : VideoQuality :=
  {| quality_id := "3"; quality_width := 1280; quality_height := 720;
     quality_bitrate := 2500000; quality_codec := Some "avc1.4d401f";
     quality_index := 0 |}.

Definition getById (id : string) : option VideoQuality :=
  if bool_decide (id = "3") then Some quality3 else None.

(** Later: the manifest is in, and the user has picked a quality. *)
Definition playing : World :=
  with_host_state true None false (Some quality3) getById
    (with_variantTracks 0 tracks ready).

(** The [shaka] namespace, passed in as the library. *)
Definition namespace : LibValue :=
  {| value_self := CtorRef "shaka"; value_prototype := ProtoFalsy;
     value_Player := Some (CtorRef "shaka.Player");
     value_call := CallThrows TypeError |}.

Definition dash_src : Src :=
  {| src_src := SrcString "https://example.org/a.mpd";
     src_type := "application/dash+xml" |}.

Definition hls_src : Src :=
  {| src_src := SrcString "https://example.org/a.m3u8";
     src_type := "application/x-mpegurl" |}.

(** A callback of the loader that fails. *)
Definition failing_callback : Ctor → M unit := λ _, throw (Error "setup failed").

(** The quality that [#onTracksChanged] makes of the third of [tracks],
    which has no id. *)
Definition quality_without_id : VideoQuality :=
  {| quality_id := "dash-bitrate-1"; quality_width := 1280; quality_height := 1080;
     quality_bitrate := 2500000; quality_codec := Some "avc1.4d401f";
     quality_index := 1 |}.

(** As [playing], but the user has picked the quality without id. *)
Definition playing_without_id : World :=
  with_host_state true None false (Some quality_without_id) getById
    (with_variantTracks 0 tracks ready).

(** A host that already has an HLS source. *)
Definition ctx_with_source : Host :=
  {| state_canPlay := false; state_source := Some hls_src;
     qualities_auto := false; qualities_selected := None;
     qualities_getById := no_quality;
     qualities_enableAuto := None; qualities_onChange := [] |}.

Definition fresh_with_source : World :=
  ShakaProvider.new (H:=browser) (Some video) ctx_with_source.

(** A provider whose library was set to [undefined]. *)
Definition without_library : World :=
  exec (ShakaProvider.set_library LibUndefined) fresh.

(** A controller that went through [setup] twice; the second player has
    tracks, the first has none. *)
Definition set_up_twice : World :=
  with_host_state true None false (Some quality3) getById
    (with_variantTracks 1 tracks
       (exec (ShakaController.setup (H:=browser) (CtorRef "second-player"))
          (exec (ShakaController.setup (H:=browser) windowPlayer)
             (ShakaProvider.new (H:=browser) (Some video) ctx)))).

(** The quality of the last of [tracks], whose height is undefined. *)
Definition quality5 : VideoQuality :=
  {| quality_id := "5"; quality_width := 1280; quality_height := 0;
     quality_bitrate := 2500000; quality_codec := Some "avc1.4d401f";
     quality_index := 2 |}.




(** A callback that throws, and the provider with it between two that
    return. *)
Definition thrower : Callback :=
  {| callback_name := "thrower"; callback_throws := Some (Error "callback failed") |}.


(** The provider on the server, where no script loads. *)
Definition on_server : World := ShakaProvider.new (H:=server) (Some video) ctx.

End Demo.

(** * Verification *)

(** ** The words of the claims *)

(** The calls that [m] makes when it runs in [w]. *)
Definition calls {A} (m : M A) (w : World) : list Effect :=
  drop (length (trace w)) (trace (exec m w)).

(** The listeners that [setup] puts on the player it builds, in the order
    of the calls of [listen]. *)
Definition setup_listeners : list (string * Handler) :=
  ((λ name, (name, DispatchShakaEvent)) <$> ShakaLibEventName_values) ++
  [(event_name ERROR, OnError);
   (event_name MANIFEST_UPDATED, OnManifestUpdated);
   (event_name LOADED, OnLoaded);
   (event_name TRACKS_CHANGED, OnTracksChanged);
   (event_name VARIANT_CHANGED, OnVariantChanged);
   (event_name ADAPTATION, OnVariantChanged)].

(** The player [i] is the controller's current instance and carries the
    listeners of [setup]. *)
Definition wired (i : InstanceId) (w : World) : Prop :=
  controller_instance w = Some i ∧ listeners_of i w = setup_listeners.

(** The controller's two functions are in place at the host's list of
    qualities, and nothing else of the controller is. *)
Definition hooked (w : World) : Prop :=
  qualities_enableAuto (host w) = Some EnableAutoQuality ∧
  qualities_onChange (host w) = [OnUserQualityChange].

(** The variant tracks of the player [i]. *)
Definition variantTracks_of (i : InstanceId) (w : World) : list Track :=
  from_option player_variantTracks [] (players w !! i).

(** A call on the host's list of qualities. *)
Definition on_qualities (e : Effect) : bool :=
  match e with
  | QualitiesSetAuto _ _ | QualitiesAdd _ _ | QualitiesSelect _ _ _ => true
  | _ => false
  end.

(** A call other than a dispatch on the host player. *)
Definition not_PlayerDispatch (e : Effect) : Prop := ∀ ev, e ≠ PlayerDispatch ev.




(** No callback that is registered throws. *)
Definition callbacks_return (w : World) : Prop :=
  Forall (λ callback, callback_throws callback = None) (controller_callbacks w).

(** A computation that makes calls and changes nothing else. *)
Definition only_calls {A} (m : M A) : Prop :=
  ∀ w, ∃ d, exec m w = set_trace (trace w ++ d) w.

Section vocabulary.
Context `{Platform}.

(** The handler that [setup] registers for an event besides the
    forwarding one. *)
Definition specific_handler (event : ShakaLibEventValues) : M unit :=
  match event with
  | AbrStatusChangedEvent _ => skip
  | ErrorEvent _ => ShakaController.onError event
  | TracksChangedEvent => ShakaController.onTracksChanged event
  | LoadedEvent => ShakaController.onLoaded event
  | ManifestUpdatedEvent _ => ShakaController.onManifestUpdated event
  | VariantChangedEvent _ _ | AdaptationChangedEvent _ _ =>
      ShakaController.onVariantChanged event
  end.

(** What [setup] needs to run to its end: the global [shaka], and
    callbacks that return. *)
Definition setup_runs (w : World) : Prop :=
  window_shaka ≠ None ∧ callbacks_return w.

(** The order of the claim: a string is loaded as a script and gives
    [window.shaka.Player]; otherwise a constructor stands for itself;
    otherwise a namespace gives its [Player]; otherwise the value is
    called as a loader and gives the default export of the module, or
    the [Player] of that export when it is a namespace. *)
Definition resolution_order (lib : ShakaLibrary) : option Ctor :=
  match lib with
  | LibUndefined => None
  | LibString src =>
      match loadScript src with
      | None => window_shaka_Player
      | Some _ => None
      end
  | LibObject value =>
      if isShakaConstructor value then Some (value_self value)
      else if value_Player value is Some player then Some player
      else match value_call value with
           | CallResolves (Some (Some export)) =>
               Some (default (export_self export) (export_Player export))
           | CallResolves _ | CallThrows _ => None
           end
  end.

(** What [onLoadError] receives when the library does not resolve. *)
Definition failure_of (lib : ShakaLibrary) : option Thrown :=
  match lib with
  | LibUndefined => None
  | LibString src =>
      Some (default
        (match window_shaka with
         | None => TypeError
         | Some _ =>
             Error (if __DEV__
                    then "[vidstack] failed loading `shaka-player`. Could not find a valid `Shaka` constructor on window"
                    else EmptyString)
         end)
        (loadScript src))
  | LibObject value =>
      Some match value_call value with
           | CallThrows t => t
           | CallResolves _ =>
               Error (if __DEV__
                      then "[vidstack] failed importing `shaka-player`. Dynamic import returned invalid object."
                      else EmptyString)
           end
  end.

(** The rest of [#startLoading], from [if (!ctor) return null] on. *)
Definition after_resolution (ctor : option Ctor) : M (option Ctor) :=
  match ctor with
  | None => mret None
  | Some ctor =>
      match window_shaka_Player with
      | None => throw TypeError
      | Some _ =>
          if negb isBrowserSupported then
            emit (PlayerDispatch (mkDOMEvent "shaka-unsupported" NoDetail None));;
            emit (Notify "error" (NotifyError ShakaLibLoader.unsupported_message 4 None) None);;
            mret None
          else mret (Some ctor)
      end
  end.


(** The calls of a load that fails. *)
Definition failure_calls (lib : ShakaLibrary) : list Effect :=
  match failure_of lib with
  | None => []
  | Some err =>
      let error := coerceToError err in
      [PlayerDispatch (mkDOMEvent "shaka-lib-load-start" NoDetail None);
       PlayerDispatch (mkDOMEvent "shaka-lib-load-error" (DetailError error) None);
       Notify "error" (NotifyError (error_message error) 4 (Some error)) None]
  end.

(** The calls of [ShakaController.setup]. *)
Definition build_calls (ctor : Ctor) (w : World) : list Effect :=
  let i := length (players w) in
  [PolyfillInstallAll; NewPlayer ctor i] ++
  ((λ callback, InstanceCallback callback i) <$> controller_callbacks w) ++
  [Attach i (controller_video w);
   PlayerDispatch (mkDOMEvent "shaka-instance" (DetailInstance i) None);
   Configure i (controller_config w)].

(** The calls of [ShakaProvider.loadSource] for the host's source, on
    the instance [i]. *)
Definition source_calls (i : InstanceId) (source : option Src) : list Effect :=
  match source with
  | None => []
  | Some src =>
      match isString_src src with
      | None => [RemoveSource]
      | Some url =>
          [SetPreload EmptyString; AppendSource src; LoadUrl i url; SetCurrentSrc src]
      end
  end.

(** The calls of the support check at the end of [#startLoading]. *)
Definition support_calls : list Effect :=
  match window_shaka_Player with
  | None => []
  | Some _ =>
      if isBrowserSupported then []
      else [PlayerDispatch (mkDOMEvent "shaka-unsupported" NoDetail None);
            Notify "error" (NotifyError ShakaLibLoader.unsupported_message 4 None) None]
  end.

End vocabulary.

(** ** More words: where a call goes and what it carries *)

(** A call on the shaka library. *)
Definition on_library (e : Effect) : bool :=
  match e with
  | PolyfillInstallAll | NewPlayer _ _ | Attach _ _ | Configure _ _
  | SelectVariantTrack _ _ | LoadUrl _ _ | Destroy _ => true
  | _ => false
  end.

(** A call on the host: its player, its state, its qualities, its media
    element. *)
Definition on_host (e : Effect) : bool :=
  match e with
  | PlayerDispatch _ | Notify _ _ _ | QualitiesSetAuto _ _ | QualitiesAdd _ _
  | QualitiesSelect _ _ _ | MediaDispatch _ _ => true
  | _ => false
  end.

(** A computation that changes nothing but the trace, and adds to it only
    calls that satisfy [P]. *)
Definition only_calls_that (P : Effect → Prop) {A} (m : M A) : Prop :=
  ∀ w, ∃ d, exec m w = set_trace (trace w ++ d) w ∧ Forall P d.

(** The types of the DOM events that a list of calls dispatches on the
    host player, in order. *)
Definition dispatched_types (l : list Effect) : list string :=
  omap (λ e, match e with PlayerDispatch ev => Some (dom_type ev) | _ => None end) l.

(** The configurations that a list of calls passes to [configure], each
    with the player that receives it. *)
Definition configured (l : list Effect) : list (InstanceId * Config) :=
  omap (λ e, match e with Configure i config => Some (i, config) | _ => None end) l.

(** The URLs that a list of calls passes to [load]. *)
Definition loaded_urls (l : list Effect) : list (InstanceId * string) :=
  omap (λ e, match e with LoadUrl i url => Some (i, url) | _ => None end) l.

(** Whether the loader calls [onLoaded] inside a [try] block for this
    library: on the script path and on the dynamic-import path. *)
Definition onLoaded_in_try (lib : ShakaLibrary) : bool :=
  match lib with
  | LibUndefined => false
  | LibString _ => true
  | LibObject value =>
      negb (isShakaConstructor value) && negb (bool_decide (is_Some (value_Player value)))
  end.

(** The qualities that a list of calls adds to the host's list. *)
Definition qualities_added (l : list Effect) : list VideoQuality :=
  omap (λ e, match e with QualitiesAdd q _ => Some q | _ => None end) l.

(** ** The monad *)

Lemma set_trace_same (w : World) : set_trace (trace w) w = w.
Proof. by destruct w. Qed.

Lemma calls_intro {A} (m : M A) (w : World) (d : list Effect) :
  trace (exec m w) = trace w ++ d → calls m w = d.
Proof. unfold calls. intros ->. by rewrite drop_app_length. Qed.

Lemma calls_none {A} (m : M A) (w : World) :
  trace (exec m w) = trace w → calls m w = [].
Proof. intros E. apply calls_intro. by rewrite app_nil_r. Qed.

Lemma bind_skip (m : M unit) (w : World) : (m ≫= λ _ : (), mret ()) w = m w.
Proof. unfold mbind, M_bind. by destruct (m w) as [[[]|t] w']. Qed.

Lemma bind_bind_skip (d h : M unit) (w : World) :
  (d ≫= λ _ : (), h ≫= λ _ : (), mret ()) w = (d ≫= λ _ : (), h) w.
Proof.
  unfold mbind, M_bind. destruct (d w) as [[[]|?] w']; [|done].
  by destruct (h w') as [[[]|?] ?].
Qed.

Lemma bind_returned {A B} (m : M A) (f : A → M B) (w : World) (a : A) :
  result m w = Returned a → (m ≫= f) w = f a (exec m w).
Proof.
  unfold result, exec, mbind, M_bind. destruct (m w) as [[] ?]; simpl; [|done].
  by intros [= ->].
Qed.

Lemma for_of_emit {A} (f : A → Effect) (xs : list A) (w : World) :
  for_of xs (λ x, emit (f x)) w
  = (Returned tt, set_trace (trace w ++ (f <$> xs)) w).
Proof.
  revert w. induction xs as [|x xs IH]; intros w; simpl.
  - by rewrite app_nil_r, set_trace_same.
  - unfold mbind, M_bind. simpl. unfold emit, modify at 1.
    rewrite IH. simpl. by rewrite <- app_assoc.
Qed.

Lemma forEach_from_emit {A} (f : A → nat → Effect) (xs : list A) (k : nat) (w : World) :
  forEach_from k xs (λ item index, emit (f item index)) w
  = (Returned tt, set_trace (trace w ++ imap (λ j x, f x (k + j)%nat) xs) w).
Proof.
  revert k w. induction xs as [|x xs IH]; intros k w; simpl.
  - by rewrite app_nil_r, set_trace_same.
  - unfold mbind, M_bind. simpl. unfold emit, modify at 1.
    rewrite IH. unfold set_trace. simpl. do 2 f_equal.
    rewrite <- app_assoc. simpl. rewrite Nat.add_0_r. do 2 f_equal.
    apply imap_ext. intros j y _. simpl. f_equal. lia.
Qed.

Lemma forEach_emit {A} (f : A → nat → Effect) (xs : list A) (w : World) :
  forEach xs (λ item index, emit (f item index)) w
  = (Returned tt, set_trace (trace w ++ imap (λ j x, f x j) xs) w).
Proof. unfold forEach. by rewrite forEach_from_emit. Qed.

(** ** Objects *)

(** Copying the properties of an object one by one gives an object with
    the same properties. *)
Lemma spread_id (o : Config) : spread o = o.
Proof.
  unfold spread.
  apply (map_fold_weak_ind (λ r m, r = m)); [done|].
  by intros i x m r _ ->.
Qed.

Lemma alter_last {A} (f : A → A) (l : list A) (x : A) :
  alter f (length l) (l ++ [x]) = l ++ [f x].
Proof. induction l; simpl; by f_equal. Qed.

(** ** The controller *)

Lemma world_ext (w1 w2 : World) :
  provider_ctor w1 = provider_ctor w2 →
  provider_library w1 = provider_library w2 →
  controller_video w1 = controller_video w2 →
  controller_instance w1 = controller_instance w2 →
  controller_callbacks w1 = controller_callbacks w2 →
  controller_config w1 = controller_config w2 →
  players w1 = players w2 →
  host w1 = host w2 →
  trace w1 = trace w2 →
  w1 = w2.
Proof. destruct w1, w2; simpl; intros; by subst. Qed.

Lemma two_calls (w : World) (a b : Effect) :
  set_trace ((trace w ++ [a]) ++ [b]) (set_trace (trace w ++ [a]) w)
  = set_trace (trace w ++ [a; b]) w.
Proof. apply world_ext; simpl; try reflexivity. by rewrite <- app_assoc. Qed.

Lemma for_of_call_callback (cbs : list Callback) (i : InstanceId) (w : World) :
  Forall (λ callback, callback_throws callback = None) cbs →
  for_of cbs (λ callback, call_callback callback i) w
  = (Returned tt, set_trace (trace w ++ ((λ cb, InstanceCallback cb i) <$> cbs)) w).
Proof.
  revert w. induction cbs as [|cb cbs IH]; intros w Hc; simpl.
  - by rewrite app_nil_r, set_trace_same.
  - apply Forall_cons in Hc as [Hcb Hc].
    unfold mbind, M_bind, call_callback. simpl. rewrite Hcb. simpl.
    rewrite IH by done. simpl. f_equal.
    apply world_ext; simpl; try reflexivity. by rewrite <- app_assoc.
Qed.

Section controller_facts.
Context `{Platform}.

(** On a wired player an event goes to the forwarding listener first and
    then to the handler of its type. *)
Lemma fire_wired i w event :
  wired i w →
  fire i event w
  = (ShakaController.dispatchShakaEvent event;; specific_handler event) w.
Proof.
  intros [_ Hl]. unfold fire. unfold mbind at 1. unfold M_bind at 1. simpl.
  rewrite Hl. destruct event; simpl; try reflexivity; apply bind_bind_skip.
Qed.

Lemma setup_exec ctor w :
  setup_runs w →
  exec (ShakaController.setup ctor) w =
  {| provider_ctor := provider_ctor w; provider_library := provider_library w;
     controller_video := controller_video w;
     controller_instance := Some (length (players w));
     controller_callbacks := controller_callbacks w;
     controller_config := controller_config w;
     players := players w ++
       [{| player_ctor := ctor; player_listeners := setup_listeners;
           player_media := controller_video w; player_variantTracks := [] |}];
     host := set_qualities_onChange
               (qualities_onChange (host w) ++ [OnUserQualityChange])
               (set_qualities_enableAuto (Some EnableAutoQuality) (host w));
     trace := trace w ++
       [PolyfillInstallAll; NewPlayer ctor (length (players w))] ++
       ((λ cb, InstanceCallback cb (length (players w))) <$> controller_callbacks w) ++
       [Attach (length (players w)) (controller_video w);
        PlayerDispatch (mkDOMEvent "shaka-instance" (DetailInstance (length (players w))) None);
        Configure (length (players w)) (controller_config w)] |}.
Proof.
  intros [Hg Hc]. unfold exec, ShakaController.setup.
  destruct window_shaka; [|done].
  unfold mbind, M_bind. simpl.
  rewrite for_of_call_callback by done. simpl.
  apply world_ext; simpl; try reflexivity.
  - rewrite !alter_last. reflexivity.
  - rewrite spread_id. by rewrite <- !app_assoc.
Qed.

Lemma setup_returns ctor w :
  setup_runs w → result (ShakaController.setup ctor) w = Returned tt.
Proof.
  intros [Hg Hc]. unfold result, ShakaController.setup.
  destruct window_shaka; [|done].
  unfold mbind, M_bind. simpl.
  by rewrite for_of_call_callback.
Qed.

(** Without the global [shaka] nothing is built. *)
Lemma setup_without_global ctor w :
  window_shaka = None → ShakaController.setup ctor w = (Threw ReferenceError, w).
Proof. intros Hg. unfold ShakaController.setup. by rewrite Hg. Qed.

Lemma setup_wired ctor w :
  setup_runs w →
  wired (length (players w)) (exec (ShakaController.setup ctor) w).
Proof.
  intros Hr. rewrite setup_exec by done. split; [done|]. unfold listeners_of. simpl.
  by rewrite list_lookup_middle.
Qed.

Lemma setup_hooked ctor w :
  setup_runs w →
  qualities_onChange (host w) = [] → hooked (exec (ShakaController.setup ctor) w).
Proof. intros Hr E. rewrite setup_exec by done. split; simpl; [done|]. by rewrite E. Qed.

Lemma specific_handler_trace event w :
  ∃ d, trace (exec (specific_handler event) w) = trace w ++ d
       ∧ Forall not_PlayerDispatch d.
Proof.
  destruct event as [| | | | |? newTrack|? newTrack]; simpl.
  - exists []. by rewrite app_nil_r.
  - exists []. by rewrite app_nil_r.
  - unfold exec, ShakaController.onTracksChanged, mbind, M_bind. simpl.
    destruct (controller_instance w) as [i|]; simpl.
    + rewrite forEach_emit. simpl. eexists. split; [done|].
      apply Forall_lookup. intros j e. rewrite list_lookup_imap.
      destruct (_ !! j); simpl; [|done]. by intros [= <-] ev.
    + exists []. by rewrite app_nil_r.
  - unfold exec, ShakaController.onLoaded, mbind, M_bind. simpl.
    destruct (controller_instance w) as [i|]; simpl;
      [|exists []; by rewrite app_nil_r].
    destruct (state_canPlay (host w)); simpl;
      [exists []; by rewrite app_nil_r|].
    destruct (players w !! i ≫= player_media); simpl;
      [|exists []; by rewrite app_nil_r].
    eexists. split; [done|]. by repeat constructor.
  - unfold exec. simpl. eexists. rewrite <- app_assoc. split; [done|].
    by repeat constructor.
  - unfold exec, ShakaController.onVariantChanged. simpl.
    destruct newTrack as [t|]; [|exists []; by rewrite app_nil_r].
    destruct (track_id t); simpl; [|exists []; by rewrite app_nil_r].
    eexists. split; [done|]. by repeat constructor.
  - unfold exec, ShakaController.onVariantChanged. simpl.
    destruct newTrack as [t|]; [|exists []; by rewrite app_nil_r].
    destruct (track_id t); simpl; [|exists []; by rewrite app_nil_r].
    eexists. split; [done|]. by repeat constructor.
Qed.

Lemma emit_then (e : Effect) (h : M unit) (w : World) :
  exec (emit e;; h) w = exec h (set_trace (trace w ++ [e]) w).
Proof. reflexivity. Qed.

(** C1. [ShakaLibEventName] has the seven names; [setup], when it runs
    to its end, puts, for each of them, the forwarding listener on the
    player it builds; and on a
    wired player every event that arrives is dispatched once on the host
    player as a DOM event whose type is ["shaka-"] followed by the
    kebab-cased type of the event, with the event itself as detail. *)
Theorem setup_forwards_every_event :
  ShakaLibEventName_values
    = ["abrstatuschanged"; "error"; "trackschanged"; "loaded";
       "manifestupdated"; "variantchanged"; "adaptation"]
  ∧ (∀ ctor w name,
       setup_runs w →
       name ∈ ShakaLibEventName_values →
       let i := length (players w) in
       let w' := exec (ShakaController.setup ctor) w in
       wired i w' ∧ (name, DispatchShakaEvent) ∈ listeners_of i w')
  ∧ (∀ i w event,
       wired i w →
       ∃ rest,
         calls (fire i event) w
         = PlayerDispatch
             (mkDOMEvent ("shaka-" +:+ camelToKebabCase (event_type event))
                (DetailEvent event) None) :: rest
         ∧ Forall not_PlayerDispatch rest).
Proof.
  split; [done|]. split.
  - intros ctor w name Hr Hname i w'.
    pose proof (setup_wired ctor w Hr) as Hw. split; [done|].
    destruct Hw as [_ Hl]. fold i w' in Hl. rewrite Hl.
    apply elem_of_app. left. apply list_elem_of_fmap. eauto.
  - intros i w event Hw.
    destruct (specific_handler_trace event
                (set_trace (trace w ++ [PlayerDispatch (ShakaController.createDOMEvent event)]) w))
      as (d & Hd & HF).
    exists d. split; [|done]. apply calls_intro.
    unfold exec. rewrite (fire_wired _ _ _ Hw).
    unfold ShakaController.dispatchShakaEvent.
    fold (exec (emit (PlayerDispatch (ShakaController.createDOMEvent event));; specific_handler event) w).
    rewrite emit_then, Hd. simpl. by rewrite <- app_assoc.
Qed.

(** C3. On [manifestupdated] the controller sets the host's quality
    selection to automatic and notifies ['stream-type-change'], with
    ['live'] exactly when [isLive] is true and ['on-demand'] otherwise. *)
Theorem manifestupdated_sets_stream_type i w isLive :
  wired i w →
  let event := ManifestUpdatedEvent isLive in
  let trigger :=
    mkDOMEvent ("shaka-" +:+ camelToKebabCase "manifestupdated") (DetailEvent event) None in
  ∃ streamType,
    calls (fire i event) w
    = [PlayerDispatch trigger;
       QualitiesSetAuto true (Some trigger);
       Notify "stream-type-change" (NotifyValue streamType) (Some trigger)]
    ∧ (streamType = "live" ↔ isLive = true)
    ∧ (streamType = "on-demand" ↔ isLive = false).
Proof.
  intros Hw event trigger. exists (if isLive then "live" else "on-demand").
  split.
  - apply calls_intro. unfold exec. rewrite (fire_wired _ _ _ Hw).
    simpl. by rewrite <- !app_assoc.
  - by destruct isLive.
Qed.

Lemma has_height_filter (l : list Track) :
  filter (λ item, ShakaController.has_height item) l
  = filter (λ item, track_height item ≠ IsNull) l.
Proof.
  apply list_filter_iff. intros item. unfold ShakaController.has_height.
  by destruct (track_height item).
Qed.

(** C4. On [trackschanged] the variant tracks whose height is not null
    are added to the host's qualities, in order: the id is the track id
    as a string, or ["dash-bitrate-<index>"] for a nullish id; width,
    height and bitrate default to 0 where the field is nullish, so a
    track whose height is undefined is added with height 0; the codec is
    the track's [videoCodec]; the index is the position among the tracks
    whose height is not null.  A track with a null height is never
    added. *)
Theorem trackschanged_adds_qualities i w :
  wired i w →
  let event := TracksChangedEvent in
  let trigger :=
    mkDOMEvent ("shaka-" +:+ camelToKebabCase "trackschanged") (DetailEvent event) None in
  let variants := filter (λ item, track_height item ≠ IsNull) (variantTracks_of i w) in
  calls (fire i event) w
  = PlayerDispatch trigger ::
    imap (λ index item,
            QualitiesAdd
              {| quality_id :=
                   match track_id item with
                   | Some id => pretty id
                   | None => "dash-bitrate-" +:+ pretty index
                   end;
                 quality_width := match track_width item with Some x => x | None => 0 end;
                 quality_height :=
                   match track_height item with
                   | IsValue x => x
                   | IsNull | IsUndefined => 0
                   end;
                 quality_bitrate := match track_bandwidth item with Some x => x | None => 0 end;
                 quality_codec := track_videoCodec item;
                 quality_index := index |}
              (Some trigger))
      variants
  ∧ ∀ q tr, QualitiesAdd q tr ∈ calls (fire i event) w →
      ∃ item, item ∈ variantTracks_of i w
              ∧ track_height item ≠ IsNull
              ∧ q = ShakaController.quality_of item (quality_index q).
Proof.
  intros Hw event trigger variants.
  assert (calls (fire i event) w = PlayerDispatch trigger ::
    imap (λ index item, QualitiesAdd (ShakaController.quality_of item index) (Some trigger)) variants) as Hcalls.
  { apply calls_intro. unfold exec. rewrite (fire_wired _ _ _ Hw).
    destruct Hw as [Hi _].
    unfold specific_handler, event, ShakaController.dispatchShakaEvent,
      ShakaController.onTracksChanged, mbind, M_bind. simpl. rewrite Hi. simpl.
    rewrite forEach_emit. simpl. rewrite <- app_assoc. simpl.
    fold (variantTracks_of i w). by rewrite has_height_filter. }
  split.
  - rewrite Hcalls. f_equal. apply imap_ext. intros j item _.
    unfold ShakaController.quality_of. by destruct item as [[] [] [] [] ?].
  - intros q tr. rewrite Hcalls. intros Hin.
    apply elem_of_cons in Hin as [?|Hin]; [done|].
    apply list_elem_of_lookup in Hin as [j Hj].
    rewrite list_lookup_imap in Hj.
    destruct (variants !! j) as [item|] eqn:Hitem; [|done].
    injection Hj as <- _.
    apply list_elem_of_lookup_2 in Hitem.
    apply list_elem_of_filter in Hitem as [Hh Hitem].
    by exists item.
Qed.

(** C5, as amended.  On [variantchanged] and [adaptation], a non-null
    [newTrack] that has an id makes the controller select the quality
    that the host has under the track id as a string; a null [newTrack]
    leaves the host's qualities alone. *)
Theorem variantchanged_selects_quality i w event :
  wired i w →
  event_type event = "variantchanged" ∨ event_type event = "adaptation" →
  let trigger :=
    mkDOMEvent ("shaka-" +:+ camelToKebabCase (event_type event)) (DetailEvent event) None in
  (∀ newTrack id,
      event_newTrack event = Some newTrack →
      track_id newTrack = Some id →
      calls (fire i event) w
      = [PlayerDispatch trigger;
         QualitiesSelect (qualities_getById (host w) (pretty id)) true (Some trigger)])
  ∧ (event_newTrack event = None →
      calls (fire i event) w = [PlayerDispatch trigger]
      ∧ filter (λ e, on_qualities e) (calls (fire i event) w) = []).
Proof.
  intros Hw Hty trigger.
  assert (specific_handler event = ShakaController.onVariantChanged event) as Hh.
  { by destruct event, Hty. }
  split.
  - intros newTrack id Hn Hid. apply calls_intro. unfold exec.
    rewrite (fire_wired _ _ _ Hw), Hh.
    unfold ShakaController.onVariantChanged. rewrite Hn, Hid.
    simpl. by rewrite <- !app_assoc.
  - intros Hn.
    assert (calls (fire i event) w = [PlayerDispatch trigger]) as ->; [|done].
    apply calls_intro. unfold exec.
    rewrite (fire_wired _ _ _ Hw), Hh.
    unfold ShakaController.onVariantChanged. by rewrite Hn.
Qed.

(** A non-null [newTrack] whose id is nullish, which the other handlers
    provide for with [id?.toString()], makes [newTrack.id.toString()]
    throw before anything is selected. *)
Lemma variantchanged_without_id i w event newTrack :
  wired i w →
  event_type event = "variantchanged" ∨ event_type event = "adaptation" →
  event_newTrack event = Some newTrack →
  track_id newTrack = None →
  fire i event w
  = (Threw TypeError,
     set_trace (trace w ++ [PlayerDispatch (ShakaController.createDOMEvent event)]) w).
Proof.
  intros Hw Hty Hn Hid. rewrite (fire_wired _ _ _ Hw).
  assert (specific_handler event = ShakaController.onVariantChanged event) as ->.
  { by destruct event, Hty. }
  unfold ShakaController.onVariantChanged. by rewrite Hn, Hid.
Qed.

(** C6. When the host's qualities change with auto off and a quality
    selected, the controller configures [abr.enabled] to false on the
    instance and calls [selectVariantTrack] with the first variant track
    whose id, as a string, is the id of the selected quality; it selects
    nothing without an instance, with auto on, with nothing selected, or
    when no variant matches.  Enabling auto quality configures
    [abr.enabled] to true. *)
Theorem user_quality_change_delegates :
  (∀ ctor w, setup_runs w →
             qualities_onChange (host w) = [] →
             hooked (exec (ShakaController.setup ctor) w))
  ∧ (∀ w i quality,
       hooked w →
       controller_instance w = Some i →
       qualities_auto (host w) = false →
       qualities_selected (host w) = Some quality →
       calls qualities_change w
       = Configure i ({[ "abr" := CObj {[ "enabled" := CBool false ]} ]} : Config) ::
         match List.find (λ t, bool_decide (pretty <$> track_id t = Some (quality_id quality)))
                 (variantTracks_of i w) with
         | Some track => [SelectVariantTrack i track]
         | None => []
         end)
  ∧ (∀ w,
       hooked w →
       controller_instance w = None ∨ qualities_auto (host w) = true
         ∨ qualities_selected (host w) = None →
       calls qualities_change w = [])
  ∧ (∀ w i,
       hooked w →
       controller_instance w = Some i →
       calls qualities_call_enableAuto w
       = [Configure i ({[ "abr" := CObj {[ "enabled" := CBool true ]} ]} : Config)]).
Proof.
  split; [apply setup_hooked|]. split; [|split].
  - intros w i quality [_ Hc] Hi Ha Hs. apply calls_intro.
    unfold exec, qualities_change. unfold mbind at 1. unfold M_bind at 1. simpl.
    rewrite Hc. simpl. rewrite bind_skip.
    unfold ShakaController.onUserQualityChange, ShakaController.disableAutoQuality,
      mbind, M_bind. simpl. rewrite Hi, Ha, Hs. simpl. rewrite Hi. simpl.
    fold (variantTracks_of i w). unfold ShakaController.same_id.
    rewrite Hs. simpl.
    by destruct (List.find _ _); simpl; rewrite <- ?app_assoc.
  - intros w [_ Hc] Hcase. apply calls_none.
    unfold exec, qualities_change. unfold mbind at 1. unfold M_bind at 1. simpl.
    rewrite Hc. simpl. rewrite bind_skip.
    unfold ShakaController.onUserQualityChange, mbind, M_bind. simpl.
    destruct (controller_instance w); [|done].
    destruct Hcase as [?|[->| ->]]; [done|done|].
    by destruct (qualities_auto (host w)).
  - intros w i [He _] Hi. apply calls_intro.
    unfold exec, qualities_call_enableAuto, mbind, M_bind. simpl.
    rewrite He. unfold ShakaController.enableAutoQuality, mbind, M_bind. simpl.
    by rewrite Hi.
Qed.

End controller_facts.

(** ** The loader of the library *)

Section loader_facts.
Context `{Platform}.




(** It is enough that the callback returns where the loader calls it. *)
Lemma startLoading_resolved_at lib callback ctor w :
  resolution_order lib = Some ctor →
  result (callback ctor)
    (set_trace
       (trace w ++
        [PlayerDispatch (mkDOMEvent "shaka-lib-load-start" NoDetail None);
         PlayerDispatch (mkDOMEvent "shaka-lib-loaded" (DetailCtor ctor) None)]) w)
  = Returned tt →
  ShakaLibLoader.startLoading lib callback w
  = (ShakaLibLoader.onLoadStart;;
     ShakaLibLoader.onLoaded callback ctor;;
     after_resolution (Some ctor)) w.
Proof.
  intros Hres Hcb. unfold result in Hcb.
  unfold ShakaLibLoader.startLoading.
  destruct lib as [|src|value]; simpl in Hres; [done|..].
  - destruct (loadScript src) eqn:El; [done|].
    unfold loadShakaScript, after_resolution, window_shaka_Player in *. rewrite El.
    destruct window_shaka as [shaka|]; [|done]. simpl in Hres.
    unfold mbind, M_bind, try_catch. simpl. rewrite Hres.
    unfold ShakaLibLoader.onLoaded, ShakaLibLoader.onLoadStart, mbind, M_bind. simpl.
    rewrite two_calls.
    by destruct (callback ctor _) as [[[]|] ?].
  - unfold loadShakaScript, importShaka.
    unfold mbind, M_bind, try_catch. simpl.
    unfold ShakaLibLoader.onLoaded, ShakaLibLoader.onLoadStart, mbind, M_bind. simpl.
    destruct (isShakaConstructor value); simpl.
    { injection Hres as <-. rewrite two_calls.
      by destruct (callback _ _) as [[[]|] ?]. }
    destruct (value_Player value) as [player|]; simpl.
    { injection Hres as <-. rewrite two_calls.
      by destruct (callback _ _) as [[[]|] ?]. }
    destruct (value_call value) as [|[[export|]|]]; try done.
    injection Hres as <-. simpl.
    destruct (export_Player export) as [player|]; simpl in Hcb; simpl;
      rewrite two_calls; by destruct (callback _ _) as [[[]|] ?].
Qed.

Lemma startLoading_failed lib callback w :
  resolution_order lib = None →
  ShakaLibLoader.startLoading lib callback w
  = (Returned None, set_trace (trace w ++ failure_calls lib) w).
Proof.
  intros Hres. unfold ShakaLibLoader.startLoading, failure_calls.
  destruct lib as [|src|value]; simpl in Hres.
  - simpl. by rewrite app_nil_r, set_trace_same.
  - unfold loadShakaScript, mbind, M_bind, try_catch. simpl.
    destruct (loadScript src) eqn:El; simpl.
    + unfold set_trace; simpl. by rewrite <- !app_assoc.
    + unfold window_shaka_Player in Hres.
      destruct window_shaka as [shaka|]; simpl in *.
      * rewrite Hres. simpl. unfold set_trace; simpl. by rewrite <- !app_assoc.
      * unfold set_trace; simpl. by rewrite <- !app_assoc.
  - unfold loadShakaScript, importShaka, mbind, M_bind, try_catch. simpl.
    destruct (isShakaConstructor value); [done|].
    destruct (value_Player value); [done|].
    destruct (value_call value) as [|[[export|]|]]; try done; simpl;
      unfold set_trace; simpl; by rewrite <- !app_assoc.
Qed.

End loader_facts.

(** ** The provider *)

Section provider_facts.
Context `{Platform}.

Lemma setup_callback_run ctor w :
  setup_runs w →
  ShakaProvider.setup_callback ctor w
  = (Returned tt,
     set_trace
       (trace w ++ build_calls ctor w ++
        [Notify "provider-setup" NotifyProvider None] ++
        source_calls (length (players w)) (state_source (host w)))
       (exec (ShakaController.setup ctor) (set_provider_ctor (Some ctor) w))).
Proof.
  intros Hr. unfold ShakaProvider.setup_callback.
  unfold mbind at 1. unfold M_bind at 1. simpl.
  rewrite (bind_returned _ _ _ tt) by (by apply setup_returns).
  rewrite setup_exec by exact Hr. unfold build_calls, source_calls. simpl.
  unfold mbind, M_bind. simpl.
  destruct (state_source (host w)) as [src|]; simpl.
  - unfold ShakaProvider.loadSource, ShakaController.loadSource.
    destruct (isString_src src) as [url|]; simpl.
    + unfold mbind, M_bind. simpl. unfold emit, modify. f_equal.
      apply world_ext; simpl; try reflexivity.
      rewrite <- !app_assoc. simpl. by rewrite <- !app_assoc.
    + unfold emit, modify. f_equal. apply world_ext; simpl; try reflexivity.
      rewrite <- !app_assoc. simpl. by rewrite <- !app_assoc.
  - unfold skip. simpl. f_equal. apply world_ext; simpl; try reflexivity.
    rewrite <- !app_assoc. simpl. by rewrite <- !app_assoc.
Qed.

Lemma setup_callback_returns ctor w :
  setup_runs w → result (ShakaProvider.setup_callback ctor) w = Returned tt.
Proof. intros Hr. unfold result. by rewrite setup_callback_run. Qed.

Lemma after_resolution_trace ctor w :
  trace (exec (after_resolution (Some ctor)) w) = trace w ++ support_calls.
Proof.
  unfold exec, after_resolution, support_calls.
  destruct window_shaka_Player; simpl; [|by rewrite app_nil_r].
  destruct isBrowserSupported; simpl; [by rewrite app_nil_r|].
  by rewrite <- app_assoc.
Qed.

Lemma provider_setup_resolved ctor w :
  setup_runs w →
  resolution_order (provider_library w) = Some ctor →
  calls ShakaProvider.setup w
  = [SuperSetup;
     PlayerDispatch (mkDOMEvent "shaka-lib-load-start" NoDetail None);
     PlayerDispatch (mkDOMEvent "shaka-lib-loaded" (DetailCtor ctor) None)] ++
    build_calls ctor w ++
    [Notify "provider-setup" NotifyProvider None] ++
    source_calls (length (players w)) (state_source (host w)) ++
    support_calls.
Proof.
  intros Hr Hres. apply calls_intro.
  unfold exec, ShakaProvider.setup, ShakaLibLoader.new.
  unfold mbind, M_bind. simpl.
  unfold exec.
  rewrite (startLoading_resolved_at _ _ ctor)
    by (done || (apply setup_callback_returns; exact Hr)).
  unfold ShakaLibLoader.onLoadStart, ShakaLibLoader.onLoaded.
  unfold mbind at 1. unfold M_bind at 1. simpl.
  unfold mbind at 1. unfold M_bind at 1. unfold mbind at 1. unfold M_bind at 1. simpl.
  rewrite setup_callback_run by exact Hr. simpl.
  unfold support_calls, build_calls.
  destruct window_shaka_Player; simpl;
    [destruct isBrowserSupported; simpl|];
    rewrite ?app_nil_r; repeat (rewrite <- app_assoc; simpl); done.
Qed.

Lemma provider_setup_failed w :
  resolution_order (provider_library w) = None →
  calls ShakaProvider.setup w = SuperSetup :: failure_calls (provider_library w)
  ∧ players (exec ShakaProvider.setup w) = players w
  ∧ controller_instance (exec ShakaProvider.setup w) = controller_instance w
  ∧ provider_ctor (exec ShakaProvider.setup w) = provider_ctor w.
Proof.
  intros Hres.
  assert (exec ShakaProvider.setup w
          = set_trace (trace w ++ SuperSetup :: failure_calls (provider_library w)) w) as Hx.
  { unfold exec, ShakaProvider.setup, ShakaLibLoader.new.
    unfold mbind, M_bind. simpl. unfold exec.
    rewrite startLoading_failed by done. simpl.
    apply world_ext; simpl; try reflexivity. by rewrite <- app_assoc. }
  split; [apply calls_intro|]; by rewrite Hx.
Qed.

End provider_facts.

(** ** The provider and its loader, as the claims state them *)






Section provider_claims.
Context `{Platform}.

Lemma after_resolution_exec ctor w :
  exec (after_resolution (Some ctor)) w = set_trace (trace w ++ support_calls) w.
Proof.
  unfold exec, after_resolution, support_calls.
  destruct window_shaka_Player; simpl; [|by rewrite app_nil_r, set_trace_same].
  destruct isBrowserSupported; simpl; [by rewrite app_nil_r, set_trace_same|].
  apply world_ext; simpl; try reflexivity. by rewrite <- app_assoc.
Qed.

Lemma provider_setup_exec ctor w :
  setup_runs w →
  resolution_order (provider_library w) = Some ctor →
  exec ShakaProvider.setup w
  = set_trace (trace w ++ calls ShakaProvider.setup w)
      (exec (ShakaController.setup ctor) (set_provider_ctor (Some ctor) w)).
Proof.
  intros Hr Hres. rewrite (provider_setup_resolved ctor w Hr Hres).
  unfold exec at 1. unfold ShakaProvider.setup, ShakaLibLoader.new.
  unfold mbind, M_bind. simpl. unfold exec at 1.
  rewrite (startLoading_resolved_at _ _ ctor)
    by (done || (apply setup_callback_returns; exact Hr)).
  unfold ShakaLibLoader.onLoadStart, ShakaLibLoader.onLoaded.
  unfold mbind at 1. unfold M_bind at 1. simpl.
  unfold mbind at 1. unfold M_bind at 1. unfold mbind at 1. unfold M_bind at 1. simpl.
  rewrite setup_callback_run by exact Hr.
  rewrite !setup_exec by exact Hr. unfold support_calls, build_calls.
  destruct window_shaka_Player; simpl;
    [destruct isBrowserSupported; simpl|];
    (apply world_ext; simpl; try reflexivity;
     rewrite ?app_nil_r; repeat (rewrite <- app_assoc; simpl); done).
Qed.



(** C8. Server-side, [load] throws the error with the message
    ['[vidstack] can not load shaka provider server-side'] and builds no
    provider; a provider is built and returned in a browser only. *)
Theorem load_throws_server_side target context :
  (__SERVER__ = true →
     ShakaProviderLoader.load target context
     = inl (Error "[vidstack] can not load shaka provider server-side"))
  ∧ (∀ provider,
       ShakaProviderLoader.load target context = inr provider →
       __SERVER__ = false ∧ provider = ShakaProvider.new target context).
Proof.
  unfold ShakaProviderLoader.load. split.
  - by intros ->.
  - intros provider. destruct __SERVER__; [done|].
    destruct (__DEV__ && _); [done|]. by intros [= <-].
Qed.

End provider_claims.

(** ** What keeps a player wired *)

Create HintDb only_calls.

Lemma only_calls_ret {A} (a : A) : only_calls (mret a : M A).
Proof. intros w. exists []. unfold exec. simpl. by rewrite app_nil_r, set_trace_same. Qed.

Lemma only_calls_skip : only_calls skip.
Proof. apply only_calls_ret. Qed.

Lemma only_calls_throw {A} (t : Thrown) : only_calls (throw t : M A).
Proof. intros w. exists []. unfold exec. simpl. by rewrite app_nil_r, set_trace_same. Qed.

Lemma only_calls_gets {A} (f : World → A) : only_calls (gets f).
Proof. intros w. exists []. unfold exec. simpl. by rewrite app_nil_r, set_trace_same. Qed.

Lemma only_calls_emit (e : Effect) : only_calls (emit e).
Proof. intros w. by exists [e]. Qed.

Lemma only_calls_bind {A B} (m : M A) (f : A → M B) :
  only_calls m → (∀ a, only_calls (f a)) → only_calls (m ≫= f).
Proof.
  intros Hm Hf w. destruct (Hm w) as [d Hd]. unfold exec, mbind, M_bind in *.
  destruct (m w) as [[a|t] w1]; simpl in *; subst w1.
  - destruct (Hf a (set_trace (trace w ++ d) w)) as [d' Hd']. unfold exec in Hd'.
    rewrite Hd'. exists (d ++ d'). apply world_ext; simpl; try reflexivity.
    by rewrite app_assoc.
  - by exists d.
Qed.

Lemma only_calls_for_of {A} (xs : list A) (body : A → M unit) :
  (∀ x, only_calls (body x)) → only_calls (for_of xs body).
Proof.
  intros Hb. induction xs as [|x xs IH]; simpl.
  - apply only_calls_ret.
  - apply only_calls_bind; [apply Hb|]. by intros _.
Qed.

Lemma only_calls_forEach_from {A} (k : nat) (xs : list A) (body : A → nat → M unit) :
  (∀ x j, only_calls (body x j)) → only_calls (forEach_from k xs body).
Proof.
  intros Hb. revert k. induction xs as [|x xs IH]; intros k; simpl.
  - apply only_calls_ret.
  - apply only_calls_bind; [apply Hb|]. by intros _.
Qed.

Lemma only_calls_configure i config : only_calls (configure i config).
Proof. apply only_calls_emit. Qed.

Lemma only_calls_getVariantTracks i : only_calls (getVariantTracks i).
Proof. apply only_calls_gets. Qed.

Lemma only_calls_getMediaElement i : only_calls (getMediaElement i).
Proof. apply only_calls_gets. Qed.

#[global] Hint Resolve only_calls_ret only_calls_skip only_calls_throw
  only_calls_gets only_calls_emit only_calls_configure
  only_calls_getVariantTracks only_calls_getMediaElement : only_calls.

Ltac solve_only_calls :=
  repeat first
    [ progress auto with only_calls
    | apply only_calls_bind; [|intros ?]
    | apply only_calls_for_of; intros ?
    | apply only_calls_forEach_from; intros ? ?
    | match goal with
      | |- only_calls (match ?x with _ => _ end) => destruct x
      end ].

Section invariants.
Context `{Platform}.

Lemma only_calls_run_handler h event : only_calls (ShakaController.run_handler h event).
Proof.
  destruct h; simpl;
    unfold ShakaController.dispatchShakaEvent, ShakaController.onError,
      ShakaController.onManifestUpdated, ShakaController.onLoaded,
      ShakaController.onTracksChanged, ShakaController.onVariantChanged,
      forEach, getVariantTracks, getMediaElement;
    solve_only_calls.
Qed.

Lemma only_calls_fire i event : only_calls (fire i event).
Proof. unfold fire. solve_only_calls; apply only_calls_run_handler. Qed.

Lemma only_calls_onUserQualityChange : only_calls ShakaController.onUserQualityChange.
Proof.
  unfold ShakaController.onUserQualityChange, ShakaController.disableAutoQuality,
    configure, getVariantTracks.
  solve_only_calls.
Qed.

Lemma only_calls_qualities_change : only_calls qualities_change.
Proof. unfold qualities_change. solve_only_calls. Qed.

Lemma only_calls_qualities_call_enableAuto : only_calls qualities_call_enableAuto.
Proof.
  unfold qualities_call_enableAuto, ShakaController.enableAutoQuality, configure.
  solve_only_calls.
Qed.

Lemma only_calls_loadSource src preload : only_calls (ShakaProvider.loadSource src preload).
Proof.
  unfold ShakaProvider.loadSource, ShakaController.loadSource. solve_only_calls.
Qed.

(** Calls alone leave a player wired and the host hooked. *)
Lemma wired_only_calls {A} (m : M A) i w :
  only_calls m → wired i w → wired i (exec m w).
Proof.
  intros Hm [Hi Hl]. destruct (Hm w) as [d ->]. split; [exact Hi|exact Hl].
Qed.

Lemma hooked_only_calls {A} (m : M A) w :
  only_calls m → hooked w → hooked (exec m w).
Proof.
  intros Hm [He Hc]. destruct (Hm w) as [d ->]. split; [exact He|exact Hc].
Qed.

(** So do new tracks, a new state of the host, and a new callback. *)
Lemma wired_with_variantTracks i j tracks w :
  wired i w → wired i (with_variantTracks j tracks w).
Proof.
  intros [Hi Hl]. split; [done|]. rewrite <- Hl.
  unfold listeners_of, with_variantTracks. simpl.
  rewrite list_lookup_alter. case_decide; [subst j|done].
  by destruct (players w !! i).
Qed.

Lemma wired_with_host_state i canPlay source auto selected getById w :
  wired i w → wired i (with_host_state canPlay source auto selected getById w).
Proof. done. Qed.

Lemma hooked_with_host_state canPlay source auto selected getById w :
  hooked w → hooked (with_host_state canPlay source auto selected getById w).
Proof. done. Qed.

Lemma hooked_with_variantTracks j tracks w :
  hooked w → hooked (with_variantTracks j tracks w).
Proof. done. Qed.

Lemma wired_onInstance i callback w :
  wired i w → wired i (exec (ShakaProvider.onInstance callback) w).
Proof.
  intros Hw. unfold exec, ShakaProvider.onInstance, ShakaController.onInstance,
    call_callback, mbind, M_bind. simpl.
  destruct (controller_instance w); simpl;
    [destruct (callback_throws callback); simpl|]; try done; by case_bool_decide.
Qed.

Lemma hooked_onInstance callback w :
  hooked w → hooked (exec (ShakaProvider.onInstance callback) w).
Proof.
  intros Hw. unfold exec, ShakaProvider.onInstance, ShakaController.onInstance,
    call_callback, mbind, M_bind. simpl.
  destruct (controller_instance w); simpl;
    [destruct (callback_throws callback); simpl|]; try done; by case_bool_decide.
Qed.

(** Whatever happens after [setup], short of [destroy] and of a second
    [setup], the player stays wired and the host hooked. *)
Lemma wired_step i s w : wired i w → wired i (step s w).
Proof.
  intros Hw. destruct s; simpl.
  - by apply wired_only_calls; [apply only_calls_fire|].
  - by apply wired_only_calls; [apply only_calls_qualities_change|].
  - by apply wired_only_calls; [apply only_calls_qualities_call_enableAuto|].
  - by apply wired_with_variantTracks.
  - by apply wired_with_host_state.
  - by apply wired_onInstance.
  - by apply wired_only_calls; [apply only_calls_loadSource|].
Qed.

Lemma hooked_step s w : hooked w → hooked (step s w).
Proof.
  intros Hw. destruct s; simpl.
  - by apply hooked_only_calls; [apply only_calls_fire|].
  - by apply hooked_only_calls; [apply only_calls_qualities_change|].
  - by apply hooked_only_calls; [apply only_calls_qualities_call_enableAuto|].
  - by apply hooked_with_variantTracks.
  - by apply hooked_with_host_state.
  - by apply hooked_onInstance.
  - by apply hooked_only_calls; [apply only_calls_loadSource|].
Qed.

Lemma wired_run i steps w : wired i w → wired i (run steps w).
Proof.
  revert w. induction steps as [|s steps IH]; intros w Hw; [done|].
  simpl. by apply IH, wired_step.
Qed.

Lemma hooked_run steps w : hooked w → hooked (run steps w).
Proof.
  revert w. induction steps as [|s steps IH]; intros w Hw; [done|].
  simpl. by apply IH, hooked_step.
Qed.

Lemma wired_after_setup ctor steps w :
  setup_runs w →
  wired (length (players w)) (run steps (exec (ShakaController.setup ctor) w)).
Proof. intros Hr. by apply wired_run, setup_wired. Qed.

Lemma hooked_after_setup ctor steps w :
  setup_runs w →
  qualities_onChange (host w) = [] →
  hooked (run steps (exec (ShakaController.setup ctor) w)).
Proof. intros Hr E. by apply hooked_run, setup_hooked. Qed.

(** [#callbacks] never holds a callback twice. *)
Lemma callbacks_NoDup_new video ctx :
  NoDup (controller_callbacks (ShakaProvider.new video ctx)).
Proof. constructor. Qed.

Lemma callbacks_NoDup_onInstance callback w :
  NoDup (controller_callbacks w) →
  NoDup (controller_callbacks (exec (ShakaProvider.onInstance callback) w)).
Proof.
  intros Hnd. unfold exec, ShakaProvider.onInstance, ShakaController.onInstance,
    call_callback, mbind, M_bind. simpl.
  destruct (controller_instance w); simpl;
    [destruct (callback_throws callback); simpl|]; try done;
    case_bool_decide; simpl; try done;
    apply NoDup_app; (split; [done|]); (split; [|apply NoDup_singleton]);
    intros x Hx ->%list_elem_of_singleton; done.
Qed.

Lemma callbacks_NoDup_dispose callback w :
  NoDup (controller_callbacks w) →
  NoDup (controller_callbacks (exec (ShakaController.onInstance_dispose callback) w)).
Proof. intros Hnd. simpl. by apply NoDup_filter. Qed.

End invariants.

(** ** Support of the environment *)

Import Demo.

(** C9. [canPlay] is true only where [isHLSSupported()] is: without HLS
    support a DASH source is refused, although [ShakaProvider.supported]
    is [isHLSSupported() || isDASHSupported()] and so holds where DASH
    alone is supported.  What the loader accepts the provider supports,
    and not the other way round. *)
Theorem canPlay_needs_hls :
  (∀ (P : Platform) (src : Src),
     ShakaProviderLoader.canPlay src = true → isHLSSupported = true)
  ∧ (∀ (P : Platform) (src : Src),
       isHLSSupported = false → isDASHSrc src = true →
       ShakaProviderLoader.canPlay src = false)
  ∧ (∀ P : Platform, ShakaProvider.supported = isHLSSupported || isDASHSupported)
  ∧ (∀ (P : Platform) (src : Src),
       ShakaProviderLoader.canPlay src = true → ShakaProvider.supported = true)
  ∧ (∃ (P : Platform) (src : Src),
       isDASHSrc src = true ∧ ShakaProvider.supported = true
       ∧ ShakaProviderLoader.canPlay src = false).
Proof.
  unfold ShakaProviderLoader.canPlay, ShakaProviderLoader.supported,
    ShakaProvider.supported.
  repeat split.
  - intros P src. by destruct isHLSSupported.
  - intros P src -> _. done.
  - intros P src. by destruct isHLSSupported.
  - by exists dash_only, dash_src.
Qed.

(** An HLS source in a browser that supports HLS. *)
Lemma canPlay_needs_hls_witness :
  ShakaProviderLoader.canPlay (H:=browser) hls_src = true
  ∧ isHLSSupported (Platform:=browser) = true
  ∧ ShakaProvider.supported (H:=browser) = true.
Proof.
  assert (ShakaProviderLoader.canPlay (H:=browser) hls_src = true) as Hc
    by reflexivity.
  destruct canPlay_needs_hls as (Hhls & _ & _ & Hsup & _).
  split; [exact Hc|]. split.
  - exact (Hhls browser hls_src Hc).
  - exact (Hsup browser hls_src Hc).
Defined.

(** C10, where the code departs from it.  The script loads and leaves a
    working [window.shaka.Player], and [isBrowserSupported()] is false:
    the callback has run and the player is built, attached and configured
    before ['shaka-unsupported'] and the error with code 4 go out. *)
Theorem unsupported_browser_still_builds_player :
  calls (ShakaProvider.setup (H:=unsupported_browser))
    (ShakaProvider.new (H:=unsupported_browser) (Some video) ctx)
  = [SuperSetup;
     PlayerDispatch (mkDOMEvent "shaka-lib-load-start" NoDetail None);
     PlayerDispatch (mkDOMEvent "shaka-lib-loaded" (DetailCtor windowPlayer) None);
     PolyfillInstallAll;
     NewPlayer windowPlayer 0;
     Attach 0 (Some video);
     PlayerDispatch (mkDOMEvent "shaka-instance" (DetailInstance 0) None);
     Configure 0 ∅;
     Notify "provider-setup" NotifyProvider None;
     PlayerDispatch (mkDOMEvent "shaka-unsupported" NoDetail None);
     Notify "error"
       (NotifyError "[vidstack] `shaka-player` is not supported in this environment" 4 None)
       None].
Proof. vm_compute. reflexivity. Qed.

Section loader_outcomes.
Context `{Platform}.

(** In any browser that the library finds unsupported, the player is
    built before the check is made. *)
Lemma unsupported_after_the_callback ctor ctor' w :
  callbacks_return w →
  resolution_order (provider_library w) = Some ctor →
  window_shaka_Player = Some ctor' →
  isBrowserSupported = false →
  NewPlayer ctor (length (players w)) ∈ calls ShakaProvider.setup w
  ∧ provider_ctor (exec ShakaProvider.setup w) = Some ctor
  ∧ controller_instance (exec ShakaProvider.setup w) = Some (length (players w))
  ∧ PlayerDispatch (mkDOMEvent "shaka-unsupported" NoDetail None)
      ∈ calls ShakaProvider.setup w
  ∧ Notify "error" (NotifyError ShakaLibLoader.unsupported_message 4 None) None
      ∈ calls ShakaProvider.setup w.
Proof.
  intros Hc Hres Hwin Hsup.
  assert (setup_runs w) as Hr.
  { split; [|done]. intros E. unfold window_shaka_Player in Hwin. by rewrite E in Hwin. }
  rewrite (provider_setup_exec ctor w Hr Hres), setup_exec by exact Hr.
  rewrite (provider_setup_resolved ctor w Hr Hres).
  unfold support_calls, build_calls. rewrite Hwin, Hsup. simpl.
  repeat split; try done; repeat first [apply list_elem_of_here | apply list_elem_of_further];
    apply elem_of_app; right;
    repeat first [apply list_elem_of_here | apply list_elem_of_further];
    apply elem_of_app; right;
    repeat first [apply list_elem_of_here | apply list_elem_of_further].
Qed.

(** X15. When the library does not resolve, the callback is not called,
    no player is built, and the failure is dispatched and notified with
    code 4. *)
Lemma load_failure_never_calls_back w :
  resolution_order (provider_library w) = None →
  (∀ callback,
     ShakaLibLoader.startLoading (provider_library w) callback w
     = ShakaLibLoader.startLoading (provider_library w) (λ _, skip) w)
  ∧ players (exec ShakaProvider.setup w) = players w
  ∧ controller_instance (exec ShakaProvider.setup w) = controller_instance w
  ∧ (∀ ctor i, NewPlayer ctor i ∉ calls ShakaProvider.setup w)
  ∧ (provider_library w ≠ LibUndefined →
     ∃ error,
       calls ShakaProvider.setup w
       = [SuperSetup;
          PlayerDispatch (mkDOMEvent "shaka-lib-load-start" NoDetail None);
          PlayerDispatch (mkDOMEvent "shaka-lib-load-error" (DetailError error) None);
          Notify "error" (NotifyError (error_message error) 4 (Some error)) None]).
Proof.
  intros Hres.
  destruct (provider_setup_failed w Hres) as (Hcalls & Hp & Hi & _).
  split; [|split; [done|split; [done|split]]].
  - intros callback. by rewrite !startLoading_failed.
  - intros ctor i. rewrite Hcalls. unfold failure_calls.
    destruct (failure_of _); intros Hin;
      repeat (apply elem_of_cons in Hin as [?|Hin]; [done|]);
      by apply elem_of_nil in Hin.
  - intros Hlib. rewrite Hcalls. unfold failure_calls.
    destruct (provider_library w) as [|src|value]; [done|..]; simpl; by eexists.
Qed.

End loader_outcomes.

(** ** The theorems at work *)

Lemma ready_wired : wired 0 ready.
Proof. split; reflexivity. Defined.

Lemma playing_wired : wired 0 playing.
Proof. split; reflexivity. Defined.

Lemma playing_hooked : hooked playing.
Proof. split; reflexivity. Defined.

Lemma fresh_runs : setup_runs (H:=browser) fresh.
Proof. split; [discriminate|]. repeat constructor. Defined.

Lemma setup_forwards_every_event_witness :
  setup_runs (H:=browser) fresh
  ∧ wired 0 (exec (ShakaController.setup (H:=browser) windowPlayer) fresh)
  ∧ wired 0 ready
  ∧ ∃ rest,
      calls (fire (H:=browser) 0 (AbrStatusChangedEvent true)) ready
      = PlayerDispatch
          (mkDOMEvent "shaka-abrstatuschanged"
             (DetailEvent (AbrStatusChangedEvent true)) None) :: rest
      ∧ Forall not_PlayerDispatch rest.
Proof.
  split; [exact fresh_runs|].
  destruct (setup_forwards_every_event (H:=browser)) as (_ & Hsetup & Hfire).
  split.
  { exact (proj1 (Hsetup windowPlayer fresh "error" fresh_runs
                    (list_elem_of_further _ _ _ (list_elem_of_here _ _)))). }
  split; [exact ready_wired|].
  exact (Hfire 0%nat ready (AbrStatusChangedEvent true) ready_wired).
Defined.

Lemma manifestupdated_sets_stream_type_witness :
  wired 0 ready
  ∧ ∃ streamType,
      calls (fire (H:=browser) 0 (ManifestUpdatedEvent true)) ready
      = [PlayerDispatch
           (mkDOMEvent "shaka-manifestupdated" (DetailEvent (ManifestUpdatedEvent true)) None);
         QualitiesSetAuto true
           (Some (mkDOMEvent "shaka-manifestupdated" (DetailEvent (ManifestUpdatedEvent true)) None));
         Notify "stream-type-change" (NotifyValue streamType)
           (Some (mkDOMEvent "shaka-manifestupdated" (DetailEvent (ManifestUpdatedEvent true)) None))]
      ∧ (streamType = "live" ↔ true = true)
      ∧ (streamType = "on-demand" ↔ true = false).
Proof.
  split; [exact ready_wired|].
  exact (manifestupdated_sets_stream_type (H:=browser) 0%nat ready true ready_wired).
Defined.

Lemma trackschanged_adds_qualities_witness :
  wired 0 playing
  ∧ calls (fire (H:=browser) 0 TracksChangedEvent) playing
    = [PlayerDispatch (mkDOMEvent "shaka-trackschanged" (DetailEvent TracksChangedEvent) None);
       QualitiesAdd
         {| quality_id := "3"; quality_width := 1280; quality_height := 720;
            quality_bitrate := 2500000; quality_codec := Some "avc1.4d401f";
            quality_index := 0 |}
         (Some (mkDOMEvent "shaka-trackschanged" (DetailEvent TracksChangedEvent) None));
       QualitiesAdd
         {| quality_id := "dash-bitrate-1"; quality_width := 1280; quality_height := 1080;
            quality_bitrate := 2500000; quality_codec := Some "avc1.4d401f";
            quality_index := 1 |}
         (Some (mkDOMEvent "shaka-trackschanged" (DetailEvent TracksChangedEvent) None));
       QualitiesAdd
         {| quality_id := "5"; quality_width := 1280; quality_height := 0;
            quality_bitrate := 2500000; quality_codec := Some "avc1.4d401f";
            quality_index := 2 |}
         (Some (mkDOMEvent "shaka-trackschanged" (DetailEvent TracksChangedEvent) None))].
Proof.
  split; [exact playing_wired|].
  exact (proj1 (trackschanged_adds_qualities (H:=browser) 0%nat playing playing_wired)).
Defined.

Lemma variantchanged_selects_quality_witness :
  wired 0 playing
  ∧ calls (fire (H:=browser) 0
             (VariantChangedEvent None (Some (track (Some 3) (IsValue 720))))) playing
    = [PlayerDispatch
         (mkDOMEvent "shaka-variantchanged"
            (DetailEvent (VariantChangedEvent None (Some (track (Some 3) (IsValue 720))))) None);
       QualitiesSelect (Some quality3) true
         (Some (mkDOMEvent "shaka-variantchanged"
            (DetailEvent (VariantChangedEvent None (Some (track (Some 3) (IsValue 720))))) None))].
Proof.
  split; [exact playing_wired|].
  exact (proj1 (variantchanged_selects_quality (H:=browser) 0%nat playing
                  (VariantChangedEvent None (Some (track (Some 3) (IsValue 720))))
                  playing_wired (or_introl eq_refl))
           (track (Some 3) (IsValue 720)) 3 eq_refl eq_refl).
Defined.

Lemma user_quality_change_delegates_witness :
  hooked playing
  ∧ calls qualities_change playing
    = [Configure 0 ({[ "abr" := CObj {[ "enabled" := CBool false ]} ]} : Config);
       SelectVariantTrack 0 (track (Some 3) (IsValue 720))].
Proof.
  split; [exact playing_hooked|].
  destruct (user_quality_change_delegates (H:=browser)) as (_ & Hchange & _).
  exact (Hchange playing 0%nat quality3 playing_hooked eq_refl eq_refl eq_refl).
Defined.


Lemma fresh_NoDup : NoDup (controller_callbacks fresh).
Proof.
  apply (bool_decide_unpack (NoDup (controller_callbacks fresh))).
  vm_compute. exact I.
Defined.


Lemma load_throws_server_side_witness :
  __SERVER__ (Platform:=server) = true
  ∧ ShakaProviderLoader.load (H:=server) (Some video) ctx
    = inl (Error "[vidstack] can not load shaka provider server-side").
Proof.
  split; [reflexivity|].
  exact (proj1 (load_throws_server_side (H:=server) (Some video) ctx) eq_refl).
Defined.

(** A [variantchanged] event whose [newTrack] is not null and has no
    id: the event is forwarded, the handler throws, and no quality is
    selected. *)
Lemma variantchanged_selects_quality_counterexample :
  wired 0 playing
  ∧ event_newTrack (VariantChangedEvent None (Some (track None (IsValue 1080)))) ≠ None
  ∧ result (fire (H:=browser) 0
              (VariantChangedEvent None (Some (track None (IsValue 1080))))) playing
    = Threw TypeError
  ∧ calls (fire (H:=browser) 0
             (VariantChangedEvent None (Some (track None (IsValue 1080))))) playing
    = [PlayerDispatch
         (mkDOMEvent "shaka-variantchanged"
            (DetailEvent (VariantChangedEvent None (Some (track None (IsValue 1080)))))
            None)].
Proof.
  split; [exact playing_wired|]. split; [discriminate|].
  split; vm_compute; reflexivity.
Qed.


(** * More of the provider *)

(** ** Which way the calls go *)

Lemma only_calls_that_ret P {A} (a : A) : only_calls_that P (mret a : M A).
Proof.
  intros w. exists []. split; [|done].
  unfold exec. simpl. by rewrite app_nil_r, set_trace_same.
Qed.

Lemma only_calls_that_skip P : only_calls_that P skip.
Proof. apply only_calls_that_ret. Qed.

Lemma only_calls_that_throw P {A} (t : Thrown) : only_calls_that P (throw t : M A).
Proof.
  intros w. exists []. split; [|done].
  unfold exec. simpl. by rewrite app_nil_r, set_trace_same.
Qed.

Lemma only_calls_that_gets P {A} (f : World → A) : only_calls_that P (gets f).
Proof.
  intros w. exists []. split; [|done].
  unfold exec. simpl. by rewrite app_nil_r, set_trace_same.
Qed.

Lemma only_calls_that_emit (P : Effect → Prop) (e : Effect) :
  P e → only_calls_that P (emit e).
Proof. intros He w. exists [e]. split; [done|]. by constructor. Qed.

Lemma only_calls_that_bind P {A B} (m : M A) (f : A → M B) :
  only_calls_that P m → (∀ a, only_calls_that P (f a)) → only_calls_that P (m ≫= f).
Proof.
  intros Hm Hf w. destruct (Hm w) as (d & Hd & HP). unfold exec, mbind, M_bind in *.
  destruct (m w) as [[a|t] w1]; simpl in *; subst w1.
  - destruct (Hf a (set_trace (trace w ++ d) w)) as (d' & Hd' & HP'). unfold exec in Hd'.
    rewrite Hd'. exists (d ++ d'). split; [|by apply Forall_app].
    apply world_ext; simpl; try reflexivity. by rewrite app_assoc.
  - by exists d.
Qed.

Lemma only_calls_that_for_of P {A} (xs : list A) (body : A → M unit) :
  (∀ x, only_calls_that P (body x)) → only_calls_that P (for_of xs body).
Proof.
  intros Hb. induction xs as [|x xs IH]; simpl.
  - apply only_calls_that_ret.
  - apply only_calls_that_bind; [apply Hb|]. by intros _.
Qed.

Lemma only_calls_that_forEach_from P {A} (k : nat) (xs : list A) (body : A → nat → M unit) :
  (∀ x j, only_calls_that P (body x j)) → only_calls_that P (forEach_from k xs body).
Proof.
  intros Hb. revert k. induction xs as [|x xs IH]; intros k; simpl.
  - apply only_calls_that_ret.
  - apply only_calls_that_bind; [apply Hb|]. by intros _.
Qed.

Lemma only_calls_that_calls P {A} (m : M A) w :
  only_calls_that P m → Forall P (calls m w).
Proof.
  intros Hm. destruct (Hm w) as (d & Hd & HP).
  by rewrite (calls_intro m w d) by by rewrite Hd.
Qed.

Ltac solve_only_calls_that :=
  repeat first
    [ apply only_calls_that_ret
    | apply only_calls_that_skip
    | apply only_calls_that_throw
    | apply only_calls_that_gets
    | apply only_calls_that_emit; reflexivity
    | apply only_calls_that_bind; [|intros ?]
    | apply only_calls_that_for_of; intros ?
    | apply only_calls_that_forEach_from; intros ? ?
    | match goal with
      | |- only_calls_that _ (match ?x with _ => _ end) => destruct x
      end ].

Section feedback.
Context `{Platform}.

Lemma run_handler_on_host h event :
  only_calls_that (λ e, on_host e = true) (ShakaController.run_handler h event).
Proof.
  destruct h; simpl;
    unfold ShakaController.dispatchShakaEvent, ShakaController.onError,
      ShakaController.onManifestUpdated, ShakaController.onLoaded,
      ShakaController.onTracksChanged, ShakaController.onVariantChanged,
      forEach, getVariantTracks, getMediaElement;
    solve_only_calls_that.
Qed.

Lemma fire_on_host_only i event w :
  Forall (λ e, on_host e = true ∧ on_library e = false) (calls (fire i event) w).
Proof.
  eapply Forall_impl.
  - apply (only_calls_that_calls (λ e, on_host e = true)).
    unfold fire. solve_only_calls_that. apply run_handler_on_host.
  - intros e He. split; [done|]. by destruct e.
Qed.

Lemma quality_changes_on_library_only w :
  Forall (λ e, on_library e = true ∧ on_host e = false) (calls qualities_change w)
  ∧ Forall (λ e, on_library e = true ∧ on_host e = false) (calls qualities_call_enableAuto w).
Proof.
  split.
  - eapply Forall_impl.
    + apply (only_calls_that_calls (λ e, on_library e = true)).
      unfold qualities_change, ShakaController.onUserQualityChange,
        ShakaController.disableAutoQuality, configure, getVariantTracks.
      solve_only_calls_that.
    + intros e He. split; [done|]. by destruct e.
  - eapply Forall_impl.
    + apply (only_calls_that_calls (λ e, on_library e = true)).
      unfold qualities_call_enableAuto, ShakaController.enableAutoQuality, configure.
      solve_only_calls_that.
    + intros e He. split; [done|]. by destruct e.
Qed.

(** X1. The calls do not feed back.  Whatever event a player fires, and
    whichever of the handlers listen on it, the controller calls the
    host only; of the library it reads the variant tracks and the media
    element and changes nothing.  A change of the host's qualities and
    the [enableAuto] hook call the library only, never the host. *)
Theorem calls_go_one_way i event w :
  Forall (λ e, on_host e = true ∧ on_library e = false) (calls (fire i event) w)
  ∧ Forall (λ e, on_library e = true ∧ on_host e = false) (calls qualities_change w)
  ∧ Forall (λ e, on_library e = true ∧ on_host e = false)
      (calls qualities_call_enableAuto w).
Proof.
  split; [apply fire_on_host_only|apply quality_changes_on_library_only].
Qed.

End feedback.

(** ** Events, and the end of an instance *)

Section more_controller.
Context `{Platform}.

(** X2. On [loaded], after the event is forwarded, [#onLoaded]
    dispatches one [canplay] event, with the forwarded event as trigger,
    on the media element of the instance; it dispatches nothing when the
    host can already play or the instance has no media element. *)
Theorem loaded_dispatches_canplay i w :
  wired i w →
  let trigger :=
    mkDOMEvent ("shaka-" +:+ camelToKebabCase "loaded") (DetailEvent LoadedEvent) None in
  calls (fire i LoadedEvent) w
  = PlayerDispatch trigger ::
    match state_canPlay (host w), players w !! i ≫= player_media with
    | false, Some video =>
        [MediaDispatch video (mkDOMEvent "canplay" NoDetail (Some trigger))]
    | _, _ => []
    end.
Proof.
  intros Hw trigger. apply calls_intro. unfold exec.
  rewrite (fire_wired _ _ _ Hw). destruct Hw as [Hi _].
  unfold specific_handler, ShakaController.dispatchShakaEvent,
    ShakaController.onLoaded, getMediaElement, mbind at 1 2 3 4, M_bind. simpl.
  rewrite Hi. simpl.
  destruct (state_canPlay (host w)); simpl; [done|].
  destruct (players w !! i ≫= player_media); simpl; [|done].
  by rewrite <- app_assoc.
Qed.

(** X3. An [error] event of the library is forwarded to the host player
    as [shaka-error] and nothing else is done with it: [#onError] only
    logs, so the host is not notified of an error.  An [abrstatuschanged]
    event, which has no handler of its own, is likewise only forwarded. *)
Theorem errors_are_only_forwarded i w :
  wired i w →
  (∀ detail,
     fire i (ErrorEvent detail) w
     = (Returned tt,
        set_trace
          (trace w ++
           [PlayerDispatch
              (mkDOMEvent ("shaka-" +:+ camelToKebabCase "error")
                 (DetailEvent (ErrorEvent detail)) None)]) w))
  ∧ (∀ newStatus,
       fire i (AbrStatusChangedEvent newStatus) w
       = (Returned tt,
          set_trace
            (trace w ++
             [PlayerDispatch
                (mkDOMEvent ("shaka-" +:+ camelToKebabCase "abrstatuschanged")
                   (DetailEvent (AbrStatusChangedEvent newStatus)) None)]) w)).
Proof.
  intros Hw. split; intros x; by rewrite (fire_wired _ _ _ Hw).
Qed.

Lemma for_of_nothing {A} (xs : list A) (body : A → M unit) (w : World) :
  (∀ x, body x w = (Returned tt, w)) → for_of xs body w = (Returned tt, w).
Proof.
  intros Hb. induction xs as [|x xs IH]; simpl; [done|].
  unfold mbind, M_bind. by rewrite Hb.
Qed.

(** X4. [destroy] calls [destroy] on the instance, if there is one, and
    lets it go; after that a second [destroy], [loadSource], a change of
    the host's qualities and the [enableAuto] hook do nothing at all. *)
Theorem destroy_ends_the_instance w :
  let w' := exec ShakaController.destroy w in
  controller_instance w' = None
  ∧ calls ShakaController.destroy w
    = match controller_instance w with Some i => [Destroy i] | None => [] end
  ∧ exec ShakaController.destroy w' = w'
  ∧ (∀ src, exec (ShakaController.loadSource src) w' = w')
  ∧ exec qualities_change w' = w'
  ∧ exec qualities_call_enableAuto w' = w'.
Proof.
  intros w'. unfold w', exec, ShakaController.destroy, mbind, M_bind. simpl.
  split; [by destruct (controller_instance w)|]. split.
  { unfold calls, exec, ShakaController.destroy, mbind, M_bind. simpl.
    destruct (controller_instance w); simpl; [|by rewrite drop_all].
    by rewrite drop_app_length. }
  split; [by destruct (controller_instance w)|]. split.
  { intros src. unfold ShakaController.loadSource, mbind, M_bind.
    destruct (isString_src src); simpl; by destruct (controller_instance w). }
  split.
  - unfold qualities_change, mbind, M_bind. simpl.
    rewrite for_of_nothing; [done|]. intros [].
    unfold ShakaController.onUserQualityChange, mbind, M_bind. simpl.
    by destruct (controller_instance w).
  - unfold qualities_call_enableAuto, ShakaController.enableAutoQuality, mbind, M_bind.
    simpl. destruct (controller_instance w); simpl;
      by destruct (qualities_enableAuto (host w)) as [[]|].
Qed.

(** What counts for the delivery is the listeners on the player, not
    the instance the controller holds. *)
Lemma fire_setup_listeners i w event :
  listeners_of i w = setup_listeners →
  fire i event w
  = (ShakaController.dispatchShakaEvent event;; specific_handler event) w.
Proof.
  intros Hl. unfold fire. unfold mbind at 1. unfold M_bind at 1. simpl.
  rewrite Hl. destruct event; simpl; try reflexivity; apply bind_bind_skip.
Qed.

(** X5. [destroy] does not take the listeners off the player.  Should
    the destroyed player still fire, the event is forwarded as before;
    [#onTracksChanged] then reads the variant tracks of a null instance
    and throws a [TypeError], while [#onLoaded] returns at its guard. *)
Theorem events_outlive_destroy i w :
  wired i w →
  let w' := exec ShakaController.destroy w in
  listeners_of i w' = setup_listeners
  ∧ fire i TracksChangedEvent w'
    = (Threw TypeError,
       set_trace
         (trace w' ++
          [PlayerDispatch
             (mkDOMEvent ("shaka-" +:+ camelToKebabCase "trackschanged")
                (DetailEvent TracksChangedEvent) None)]) w')
  ∧ calls (fire i LoadedEvent) w'
    = [PlayerDispatch
         (mkDOMEvent ("shaka-" +:+ camelToKebabCase "loaded")
            (DetailEvent LoadedEvent) None)].
Proof.
  intros [Hi Hl] w'.
  assert (listeners_of i w' = setup_listeners) as Hl'.
  { rewrite <- Hl. unfold w', exec, ShakaController.destroy, mbind, M_bind. simpl.
    rewrite Hi. done. }
  assert (controller_instance w' = None) as Hi'.
  { unfold w', exec, ShakaController.destroy, mbind, M_bind. simpl. by rewrite Hi. }
  clearbody w'. split; [done|]. split.
  - rewrite (fire_setup_listeners _ _ _ Hl').
    unfold specific_handler, ShakaController.dispatchShakaEvent,
      ShakaController.onTracksChanged, mbind, M_bind. simpl. by rewrite Hi'.
  - apply calls_intro. unfold exec. rewrite (fire_setup_listeners _ _ _ Hl').
    unfold specific_handler, ShakaController.dispatchShakaEvent,
      ShakaController.onLoaded, mbind, M_bind. simpl. by rewrite Hi'.
Qed.

End more_controller.

(** ** Callbacks and sources *)

Lemma filter_ne_snoc (x : Callback) (l : list Callback) :
  x ∉ l → filter (λ y, y ≠ x) (l ++ [x]) = l.
Proof.
  intros Hx. rewrite filter_app. simpl.
  rewrite filter_cons_False by (by intros ?). rewrite filter_nil, app_nil_r.
  induction l as [|y l IH]; [done|].
  apply not_elem_of_cons in Hx as [Hne Hx].
  rewrite filter_cons_True by done. by rewrite IH.
Qed.

Section more_provider.
Context `{Platform}.

(** X6. The callbacks of [onInstance] form a set.  Adding keeps them
    without duplicates and adding a member again changes nothing; the
    function that [onInstance] returns removes that callback and no
    other, so adding a new callback and disposing of it gives back the
    callbacks there were. *)
Theorem onInstance_keeps_a_set callback w :
  NoDup (controller_callbacks w) →
  let w1 := exec (ShakaController.onInstance callback) w in
  let w2 := exec (ShakaController.onInstance_dispose callback) w1 in
  NoDup (controller_callbacks w1)
  ∧ callback ∈ controller_callbacks w1
  ∧ exec (ShakaController.onInstance callback) w1 = w1
  ∧ NoDup (controller_callbacks w2)
  ∧ (callback ∉ controller_callbacks w2)
  ∧ (∀ other, other ≠ callback →
       other ∈ controller_callbacks w2 → other ∈ controller_callbacks w)
  ∧ (∀ other, other ≠ callback →
       other ∈ controller_callbacks w → other ∈ controller_callbacks w2)
  ∧ (callback ∉ controller_callbacks w →
       controller_callbacks w2 = controller_callbacks w).
Proof.
  intros Hnd w1 w2.
  assert (controller_callbacks w1
          = if bool_decide (callback ∈ controller_callbacks w)
            then controller_callbacks w else controller_callbacks w ++ [callback]) as E1.
  { unfold w1, exec, ShakaController.onInstance. simpl. by case_bool_decide. }
  assert (controller_callbacks w2 = filter (λ c, c ≠ callback) (controller_callbacks w1))
    as E2 by done.
  assert (callback ∈ controller_callbacks w1) as Hin.
  { rewrite E1. case_bool_decide; [done|]. apply elem_of_app. right. by left. }
  assert (NoDup (controller_callbacks w1)) as Hnd1.
  { rewrite E1. case_bool_decide; [done|].
    apply NoDup_app. split; [done|]. split; [|apply NoDup_singleton].
    by intros x Hx ->%list_elem_of_singleton. }
  split; [done|]. split; [done|]. split.
  { unfold exec at 1, ShakaController.onInstance. simpl.
    by rewrite bool_decide_eq_true_2. }
  split; [rewrite E2; by apply NoDup_filter|]. split.
  { rewrite E2. rewrite list_elem_of_filter. by intros [? _]. }
  split.
  { intros other Hne. rewrite E2, list_elem_of_filter, E1.
    case_bool_decide; [by intros [_ ?]|].
    rewrite elem_of_app, list_elem_of_singleton. by intros [_ [?|?]]. }
  split.
  - intros other Hne Hother. rewrite E2, list_elem_of_filter, E1.
    split; [done|]. case_bool_decide; [done|]. apply elem_of_app. by left.
  - intros Hnot. rewrite E2, E1. rewrite bool_decide_eq_false_2 by done.
    by apply filter_ne_snoc.
Qed.

(** X7. [ShakaProvider.onInstance] calls the callback at once, with the
    current instance, exactly when there is an instance, and the
    instance stays as it is.  The callback is registered unless that
    call throws: then the exception leaves [onInstance] and the
    callbacks are as they were. *)
Theorem onInstance_calls_at_once callback w :
  calls (ShakaProvider.onInstance callback) w
  = match controller_instance w with
    | Some i => [InstanceCallback callback i]
    | None => []
    end
  ∧ controller_instance (exec (ShakaProvider.onInstance callback) w)
    = controller_instance w
  ∧ match controller_instance w, callback_throws callback with
    | Some _, Some t =>
        result (ShakaProvider.onInstance callback) w = Threw t
        ∧ controller_callbacks (exec (ShakaProvider.onInstance callback) w)
          = controller_callbacks w
    | _, _ =>
        callback ∈ controller_callbacks (exec (ShakaProvider.onInstance callback) w)
    end.
Proof.
  unfold calls, result, exec, ShakaProvider.onInstance, ShakaController.onInstance,
    call_callback, mbind, M_bind. simpl.
  destruct (controller_instance w) as [i|] eqn:Ei; simpl;
    [destruct (callback_throws callback) as [t|]; simpl|];
    try case_bool_decide; simpl;
    rewrite ?drop_app_length, ?drop_all;
    (split; [done|]); (split; [done|]); try done;
    apply elem_of_app; right; apply list_elem_of_here.
Qed.

(** X8. [ShakaProvider.loadSource] by the kind of [src.src].  Anything
    but a string removes the source of the video and does no more.  A
    string sets the preload, appends the source, has the instance load
    the URL if there is an instance, and sets the current source, in
    this order. *)
Theorem loadSource_by_kind_of_source src preload w :
  calls (ShakaProvider.loadSource src preload) w
  = match src_src src with
    | SrcObject => [RemoveSource]
    | SrcString url =>
        [SetPreload (default EmptyString preload); AppendSource src] ++
        match controller_instance w with
        | Some i => [LoadUrl i url]
        | None => []
        end ++
        [SetCurrentSrc src]
    end.
Proof.
  apply calls_intro.
  unfold exec, ShakaProvider.loadSource, ShakaController.loadSource, isString_src.
  destruct (src_src src) as [url|]; simpl; [|done].
  unfold mbind, M_bind. simpl.
  destruct (controller_instance w); simpl; by rewrite <- !app_assoc.
Qed.

End more_provider.

(** ** Loading *)

Lemma dispatched_types_callbacks (cbs : list Callback) (i : InstanceId) :
  dispatched_types ((λ cb, InstanceCallback cb i) <$> cbs) = [].
Proof. by induction cbs. Qed.

Lemma configured_callbacks (cbs : list Callback) (i : InstanceId) :
  configured ((λ cb, InstanceCallback cb i) <$> cbs) = [].
Proof. by induction cbs. Qed.

Lemma loaded_urls_callbacks (cbs : list Callback) (i : InstanceId) :
  loaded_urls ((λ cb, InstanceCallback cb i) <$> cbs) = [].
Proof. by induction cbs. Qed.

Section more_loading.
Context `{Platform}.

Lemma dispatched_types_source_calls i source :
  dispatched_types (source_calls i source) = [].
Proof. destruct source as [src|]; [|done]. simpl. by destruct (isString_src src). Qed.

Lemma setup_trace ctor w :
  setup_runs w →
  trace (exec (ShakaController.setup ctor) w) = trace w ++ build_calls ctor w.
Proof. intros Hr. by rewrite setup_exec. Qed.

(** X9. When the library resolves, the global [shaka] is defined and no
    registered callback throws, [setup] has the new player load the
    source that the host holds at that moment, once, provided [src.src]
    is a string; no URL is loaded otherwise.  The calls for the source
    come after the player is configured and the host is notified of
    [provider-setup]. *)
Theorem setup_loads_the_current_source ctor w :
  setup_runs w →
  resolution_order (provider_library w) = Some ctor →
  let i := length (players w) in
  loaded_urls (calls ShakaProvider.setup w)
  = match state_source (host w) ≫= isString_src with
    | Some url => [(i, url)]
    | None => []
    end
  ∧ ∃ before after,
      calls ShakaProvider.setup w
      = before ++
        [Configure i (controller_config w);
         Notify "provider-setup" NotifyProvider None] ++
        source_calls i (state_source (host w)) ++ after
      ∧ loaded_urls before = [] ∧ loaded_urls after = [].
Proof.
  intros Hr Hres i. rewrite (provider_setup_resolved ctor w Hr Hres). fold i.
  assert (loaded_urls support_calls = []) as Hsup.
  { unfold support_calls. destruct window_shaka_Player; [|done].
    by destruct isBrowserSupported. }
  split.
  - unfold build_calls. fold i. unfold loaded_urls. rewrite !omap_app.
    fold (loaded_urls ((λ callback, InstanceCallback callback i) <$> controller_callbacks w)).
    fold (loaded_urls support_calls).
    rewrite loaded_urls_callbacks, Hsup. simpl. rewrite app_nil_r.
    destruct (state_source (host w)) as [src|]; simpl; [|done].
    by destruct (isString_src src).
  - exists ([SuperSetup;
             PlayerDispatch (mkDOMEvent "shaka-lib-load-start" NoDetail None);
             PlayerDispatch (mkDOMEvent "shaka-lib-loaded" (DetailCtor ctor) None);
             PolyfillInstallAll; NewPlayer ctor i] ++
            ((λ callback, InstanceCallback callback i) <$> controller_callbacks w) ++
            [Attach i (controller_video w);
             PlayerDispatch (mkDOMEvent "shaka-instance" (DetailInstance i) None)]),
           support_calls.
    split; [|split; [|done]].
    + unfold build_calls. fold i. simpl. repeat (rewrite <- app_assoc; simpl). done.
    + unfold loaded_urls. simpl. rewrite omap_app.
      fold (loaded_urls ((λ callback, InstanceCallback callback i) <$> controller_callbacks w)).
      by rewrite loaded_urls_callbacks.
Qed.

(** X10. The setter of [config] stores the object, calls nothing and
    builds nothing; the getter gives it back; a later [setup] that runs
    to its end passes that object, and only that, to [configure] on the
    player it builds. *)
Theorem config_is_read_by_setup config ctor w :
  let w1 := exec (ShakaProvider.set_config config) w in
  ShakaProvider.get_config w1 = (Returned config, w1)
  ∧ calls (ShakaProvider.set_config config) w = []
  ∧ players w1 = players w
  ∧ (setup_runs w →
     configured (calls (ShakaController.setup ctor) w1) = [(length (players w), config)]).
Proof.
  intros w1. split; [done|]. split.
  { apply calls_none. done. }
  split; [done|]. intros Hr.
  rewrite (calls_intro _ _ _ (setup_trace ctor w1 Hr)).
  unfold build_calls, configured. rewrite !omap_app.
  fold (configured ((λ callback, InstanceCallback callback (length (players w1))) <$>
                      controller_callbacks w1)).
  by rewrite configured_callbacks.
Qed.

(** X11. With the library set to [undefined], [setup] does nothing
    beyond the setup of its base class: no event, no notification, no
    player. *)
Theorem undefined_library_is_silent w :
  provider_library w = LibUndefined →
  exec ShakaProvider.setup w = set_trace (trace w ++ [SuperSetup]) w.
Proof.
  intros Hlib. unfold exec, ShakaProvider.setup, ShakaLibLoader.new.
  unfold mbind, M_bind. simpl. unfold exec. rewrite Hlib.
  rewrite startLoading_failed by done. simpl.
  apply world_ext; simpl; try reflexivity. by rewrite app_nil_r.
Qed.

(** X12. The events that [setup] dispatches on the host player, in
    order, where the global [shaka] is defined and no registered
    callback throws.  None for an undefined library.  Otherwise
    [shaka-lib-load-start] comes first; it is followed by
    [shaka-lib-loaded] and [shaka-instance] when the library resolves,
    with [shaka-unsupported] last when the browser is not supported,
    and by [shaka-lib-load-error] alone when it does not resolve. *)
Theorem host_sees_the_load_in_order w :
  setup_runs w →
  dispatched_types (calls ShakaProvider.setup w)
  = match provider_library w with
    | LibUndefined => []
    | LibString _ | LibObject _ =>
        "shaka-lib-load-start" ::
        match resolution_order (provider_library w) with
        | Some _ =>
            ["shaka-lib-loaded"; "shaka-instance"] ++
            match window_shaka_Player with
            | Some _ => if isBrowserSupported then [] else ["shaka-unsupported"]
            | None => []
            end
        | None => ["shaka-lib-load-error"]
        end
    end.
Proof.
  intros Hr. destruct (resolution_order (provider_library w)) as [ctor|] eqn:Hres.
  - rewrite (provider_setup_resolved ctor w Hr Hres).
    unfold build_calls, dispatched_types. rewrite !omap_app.
    fold (dispatched_types ((λ callback, InstanceCallback callback (length (players w))) <$>
                              controller_callbacks w)).
    fold (dispatched_types (source_calls (length (players w)) (state_source (host w)))).
    rewrite dispatched_types_callbacks, dispatched_types_source_calls. simpl.
    destruct (provider_library w); [done|..];
      unfold support_calls; (destruct window_shaka_Player; [|done]);
      by destruct isBrowserSupported.
  - destruct (provider_setup_failed w Hres) as (-> & _).
    unfold failure_calls. by destruct (provider_library w).
Qed.

(** X13. A callback that throws.  [loadShakaScript] and the dynamic
    import of [importShaka] call [onLoaded] inside their [try] block:
    there the exception is reported as a load error, dispatched and
    notified, and the loader ends with [null].  For a constructor or a
    namespace passed in directly [onLoaded] is called outside any [try],
    and the exception leaves [#startLoading]. *)
Theorem throwing_callback_by_path lib callback ctor t w w' :
  resolution_order lib = Some ctor →
  callback ctor
    (set_trace
       (trace w ++
        [PlayerDispatch (mkDOMEvent "shaka-lib-load-start" NoDetail None);
         PlayerDispatch (mkDOMEvent "shaka-lib-loaded" (DetailCtor ctor) None)]) w)
  = (Threw t, w') →
  ShakaLibLoader.startLoading lib callback w
  = if onLoaded_in_try lib
    then (Returned None, exec (ShakaLibLoader.onLoadError t) w')
    else (Threw t, w').
Proof.
  intros Hres Hcb. unfold ShakaLibLoader.startLoading.
  destruct lib as [|src|value]; simpl in Hres; [done|..].
  - destruct (loadScript src) eqn:El; [done|].
    unfold loadShakaScript, window_shaka_Player in *. rewrite El.
    destruct window_shaka as [shaka|]; [|done]. simpl in Hres.
    unfold mbind, M_bind, try_catch. simpl. rewrite Hres.
    unfold ShakaLibLoader.onLoaded, ShakaLibLoader.onLoadStart, mbind, M_bind. simpl.
    by rewrite two_calls, Hcb.
  - unfold loadShakaScript, importShaka.
    unfold mbind, M_bind, try_catch. simpl.
    unfold ShakaLibLoader.onLoaded, ShakaLibLoader.onLoadStart, mbind, M_bind. simpl.
    destruct (isShakaConstructor value); simpl.
    { injection Hres as <-. by rewrite two_calls, Hcb. }
    destruct (value_Player value) as [player|]; simpl.
    { injection Hres as <-. by rewrite two_calls, Hcb. }
    destruct (value_call value) as [|[[export|]|]]; try done.
    injection Hres as <-. simpl.
    destruct (export_Player export) as [player|]; simpl in Hcb; simpl;
      by rewrite two_calls, Hcb.
Qed.

(** X14. Off the server, [load] without a target throws in a
    development build and returns a provider in a production build;
    with a target it always returns a provider.  A provider just built
    has no instance, no constructor, no callbacks and has called
    nothing. *)
Theorem load_needs_a_video_in_dev context :
  __SERVER__ = false →
  (__DEV__ = true →
     ShakaProviderLoader.load None context
     = inl (Error "[vidstack] `<video>` element was not found - did you forget to include `<media-provider>`?"))
  ∧ (__DEV__ = false →
       ShakaProviderLoader.load None context = inr (ShakaProvider.new None context))
  ∧ (∀ video,
       ShakaProviderLoader.load (Some video) context
       = inr (ShakaProvider.new (Some video) context))
  ∧ (∀ target,
       let provider := ShakaProvider.new target context in
       controller_instance provider = None
       ∧ provider_ctor provider = None
       ∧ controller_callbacks provider = []
       ∧ players provider = []
       ∧ trace provider = []
       ∧ host provider = context).
Proof.
  intros Hs. unfold ShakaProviderLoader.load. rewrite Hs.
  split; [by intros ->|]. split; [by intros ->|]. split; [|done].
  intros video. by destruct __DEV__.
Qed.

End more_loading.

(** ** Numbers as strings *)

Lemma pretty_N_go_no_prefix (x : N) (s s' : string) :
  s ≠ "dash-bitrate-" +:+ s' → pretty_N_go x s ≠ "dash-bitrate-" +:+ s'.
Proof.
  revert s. induction (N.lt_wf_0 x) as [x _ IH]. intros s Hs.
  destruct (decide (x = 0)%N) as [->|Hx]; [by rewrite pretty_N_go_0|].
  rewrite pretty_N_go_step by lia. apply IH; [apply N.div_lt; lia|].
  unfold pretty_N_char. repeat case_match; discriminate.
Qed.

Lemma pretty_Z_no_prefix (z : Z) (s : string) : pretty z ≠ "dash-bitrate-" +:+ s.
Proof.
  destruct z as [|p|p]; [discriminate| |discriminate].
  unfold pretty, pretty_Z, pretty, pretty_positive, pretty, pretty_N.
  case_decide; [discriminate|]. by apply pretty_N_go_no_prefix.
Qed.

(** ** Lists whose members carry an optional key *)

Lemma omap_key_unique {A K} (key : A → option K) (l : list A) (j k : nat) (a b : A) (y : K) :
  NoDup (omap key l) →
  l !! j = Some a → l !! k = Some b → key a = Some y → key b = Some y → j = k.
Proof.
  revert j k. induction l as [|x l IH]; intros j k Hnd Hj Hk Ha Hb; [done|].
  assert (∀ n c, l !! n = Some c → key c = Some y → y ∈ omap key l) as Hin.
  { intros n c Hn Hc. apply list_elem_of_omap. exists c. split; [|done].
    by eapply list_elem_of_lookup_2. }
  simpl in Hnd. destruct j as [|j], k as [|k]; simpl in *.
  - done.
  - injection Hj as ->. rewrite Ha in Hnd. apply NoDup_cons in Hnd as [Hnot _].
    destruct Hnot. by eapply Hin.
  - injection Hk as ->. rewrite Hb in Hnd. apply NoDup_cons in Hnd as [Hnot _].
    destruct Hnot. by eapply Hin.
  - f_equal. apply IH; try done.
    destruct (key x); [by apply NoDup_cons in Hnd as [_ ?]|done].
Qed.

Lemma find_by_key {A K} `{EqDecision K} (key : A → option K) (l : list A) (a : A) (y : K) :
  NoDup (omap key l) → a ∈ l → key a = Some y →
  List.find (λ b, bool_decide (key b = Some y)) l = Some a.
Proof.
  intros Hnd Hin Ha. apply list_elem_of_lookup in Hin as [j Hj].
  revert j Hnd Hj. induction l as [|x l IH]; intros j Hnd Hj; [done|].
  simpl. case_bool_decide as Hx.
  - f_equal. destruct j as [|j]; simpl in Hj; [by injection Hj|].
    assert (0%nat = S j) by (by eapply (omap_key_unique key (x :: l) 0 (S j) x a y)).
    done.
  - destruct j as [|j]; simpl in Hj; [injection Hj as ->; done|].
    apply (IH j); [|done]. simpl in Hnd.
    destruct (key x); [by apply NoDup_cons in Hnd as [_ ?]|done].
Qed.

Lemma find_none {A} (f : A → bool) (l : list A) :
  (∀ a, f a = false) → List.find f l = None.
Proof. intros Hf. induction l as [|x l IH]; simpl; [done|]. by rewrite Hf. Qed.

(** ** Qualities *)

Section more_qualities.
Context `{Platform}.

(** What a [trackschanged] event makes of the tracks of the instance
    [j] that the controller holds, whichever player [i] sends it. *)
Lemma trackschanged_exec i j w :
  listeners_of i w = setup_listeners →
  controller_instance w = Some j →
  fire i TracksChangedEvent w
  = (Returned tt,
     set_trace
       (trace w ++
        PlayerDispatch (ShakaController.createDOMEvent TracksChangedEvent) ::
        imap (λ index item,
                QualitiesAdd (ShakaController.quality_of item index)
                  (Some (ShakaController.createDOMEvent TracksChangedEvent)))
          (filter (λ item, ShakaController.has_height item) (variantTracks_of j w)))
       w).
Proof.
  intros Hl Hj. rewrite (fire_setup_listeners _ _ _ Hl).
  unfold specific_handler, ShakaController.dispatchShakaEvent,
    ShakaController.onTracksChanged, mbind, M_bind. simpl. rewrite Hj. simpl.
  rewrite forEach_emit. simpl. f_equal.
  apply world_ext; simpl; try reflexivity. by rewrite <- app_assoc.
Qed.

Lemma qualities_added_imap (f : nat → Track → VideoQuality)
    (trigger : option DOMEvent) (l : list Track) :
  qualities_added (imap (λ index item, QualitiesAdd (f index item) trigger) l)
  = imap f l.
Proof.
  unfold qualities_added. revert f.
  induction l as [|x l IH]; intros f; simpl; [done|]. f_equal. apply (IH (f ∘ S)).
Qed.

(** X16. The qualities that one [trackschanged] event adds have
    pairwise distinct ids whenever the tracks whose height is not null
    and that carry an id carry distinct ids: the substitute [dash-bitrate-<index>] of a
    track without id is no decimal number and differs by index. *)
Theorem qualities_get_distinct_ids i w :
  wired i w →
  NoDup (omap track_id (filter (λ item, track_height item ≠ IsNull) (variantTracks_of i w))) →
  NoDup (quality_id <$> qualities_added (calls (fire i TracksChangedEvent) w)).
Proof.
  intros [Hi Hl] Hnd. rewrite <- has_height_filter in Hnd.
  rewrite (calls_intro (fire i TracksChangedEvent) w
             (PlayerDispatch (ShakaController.createDOMEvent TracksChangedEvent) ::
              imap (λ index item,
                QualitiesAdd (ShakaController.quality_of item index)
                  (Some (ShakaController.createDOMEvent TracksChangedEvent)))
                (filter (λ item, ShakaController.has_height item) (variantTracks_of i w))))
    by (unfold exec; by rewrite (trackschanged_exec i i w Hl Hi)).
  change (qualities_added (?e :: ?l)) with (qualities_added l).
  rewrite (qualities_added_imap (λ index item, ShakaController.quality_of item index)).
  set (l := filter _ _) in *. clearbody l.
  apply NoDup_alt. intros j k x Hj Hk.
  rewrite list_lookup_fmap, list_lookup_imap in Hj, Hk.
  destruct (l !! j) as [a|] eqn:Ea; [|done].
  destruct (l !! k) as [b|] eqn:Eb; [|done].
  simpl in Hj, Hk. injection Hj as Hj. injection Hk as Hk.
  destruct (track_id a) as [ida|] eqn:Eida, (track_id b) as [idb|] eqn:Eidb;
    simpl in Hj, Hk; subst x.
  - apply (inj pretty) in Hk as ->.
    by eapply (omap_key_unique track_id l j k a b ida).
  - by destruct (pretty_Z_no_prefix ida (pretty k)).
  - by destruct (pretty_Z_no_prefix idb (pretty j)).
  - apply (inj pretty). by simplify_eq/=.
Qed.

End more_qualities.

(** ** Selection, and a second setup *)

Section more_selection.
Context `{Platform}.

(** What [#onUserQualityChange] does when it goes past its guard. *)
Lemma onUserQualityChange_exec i q w :
  controller_instance w = Some i →
  qualities_auto (host w) = false →
  qualities_selected (host w) = Some q →
  ShakaController.onUserQualityChange w
  = (Returned tt,
     set_trace
       (trace w ++
        Configure i (ShakaController.abr_enabled false) ::
        match List.find (λ t, bool_decide (pretty <$> track_id t = Some (quality_id q)))
                (variantTracks_of i w) with
        | Some track => [SelectVariantTrack i track]
        | None => []
        end) w).
Proof.
  intros Hi Ha Hs.
  unfold ShakaController.onUserQualityChange, ShakaController.disableAutoQuality,
    mbind, M_bind. simpl. rewrite Hi, Ha, Hs. simpl. rewrite Hi. simpl.
  fold (variantTracks_of i w). unfold ShakaController.same_id. rewrite Hs. simpl.
  destruct (List.find _ _); unfold emit, modify, skip; simpl; f_equal;
    apply world_ext; simpl; try reflexivity; by rewrite <- ?app_assoc.
Qed.

Lemma qualities_change_once w :
  qualities_onChange (host w) = [OnUserQualityChange] →
  qualities_change w = ShakaController.onUserQualityChange w.
Proof.
  intros Hc. unfold qualities_change. unfold mbind at 1. unfold M_bind at 1. simpl.
  rewrite Hc. simpl. apply bind_skip.
Qed.

(** X17. Round trip of the ids.  When the tracks carry distinct ids and
    the selected quality has the id that [#onTracksChanged] gave the
    quality of a track, a change of the host's qualities turns adaptive
    bitrate off and selects that very track. *)
Theorem selecting_a_quality_selects_its_track i w track id q :
  hooked w →
  controller_instance w = Some i →
  qualities_auto (host w) = false →
  qualities_selected (host w) = Some q →
  NoDup (omap track_id (variantTracks_of i w)) →
  track ∈ variantTracks_of i w →
  track_id track = Some id →
  quality_id q = pretty id →
  calls qualities_change w
  = [Configure i ({[ "abr" := CObj {[ "enabled" := CBool false ]} ]} : Config);
     SelectVariantTrack i track].
Proof.
  intros [_ Hc] Hi Ha Hs Hnd Hin Hid Hq. apply calls_intro. unfold exec.
  rewrite (qualities_change_once w Hc), (onUserQualityChange_exec i q w Hi Ha Hs).
  simpl. rewrite Hq.
  assert (List.find (λ t, bool_decide (pretty <$> track_id t = Some (pretty id)))
            (variantTracks_of i w) = Some track) as ->; [|done].
  rewrite <- (find_by_key track_id (variantTracks_of i w) track id Hnd Hin Hid).
  clear. induction (variantTracks_of i w) as [|x l IH]; simpl; [done|].
  rewrite IH. f_equal.
  assert (bool_decide (pretty <$> track_id x = Some (pretty id))
          = bool_decide (track_id x = Some id)) as ->; [|done].
  apply bool_decide_ext. destruct (track_id x) as [y|]; simpl; [|done].
  split; [intros [= ->%(inj pretty)]; done|by intros [= ->]].
Qed.

(** X18. A quality whose id is the substitute [dash-bitrate-<index>],
    which [#onTracksChanged] gives a track without id, matches no track
    in [#onUserQualityChange]: adaptive bitrate is turned off and no
    track is selected. *)
Theorem a_quality_without_track_id_selects_nothing i w q index :
  hooked w →
  controller_instance w = Some i →
  qualities_auto (host w) = false →
  qualities_selected (host w) = Some q →
  quality_id q = "dash-bitrate-" +:+ index →
  calls qualities_change w
  = [Configure i ({[ "abr" := CObj {[ "enabled" := CBool false ]} ]} : Config)].
Proof.
  intros [_ Hc] Hi Ha Hs Hq. apply calls_intro. unfold exec.
  rewrite (qualities_change_once w Hc), (onUserQualityChange_exec i q w Hi Ha Hs).
  simpl. rewrite find_none; [done|].
  intros t. apply bool_decide_eq_false_2. rewrite Hq.
  destruct (track_id t) as [id|]; simpl; [|done].
  intros [= Hp]. by destruct (pretty_Z_no_prefix id index).
Qed.

(** X20. [setup] does not let go of an earlier instance: after a second
    [setup], both running to their end, the first player is not destroyed and keeps its listeners,
    while the controller holds the second.  The handlers read the
    instance of the controller, so a [trackschanged] event of any player
    that has the listeners adds the qualities of the tracks of the
    current instance. *)
Theorem handlers_follow_the_current_instance :
  (∀ ctor1 ctor2 w,
     setup_runs w →
     let i1 := length (players w) in
     let w1 := exec (ShakaController.setup ctor1) w in
     let w2 := exec (ShakaController.setup ctor2) w1 in
     listeners_of i1 w2 = setup_listeners
     ∧ controller_instance w2 = Some (S i1)
     ∧ Forall (λ e, ∀ k, e ≠ Destroy k) (calls (ShakaController.setup ctor2) w1))
  ∧ (∀ i j w,
       listeners_of i w = setup_listeners →
       controller_instance w = Some j →
       qualities_added (calls (fire i TracksChangedEvent) w)
       = imap (λ index item, ShakaController.quality_of item index)
           (filter (λ item, track_height item ≠ IsNull) (variantTracks_of j w))).
Proof.
  split.
  - intros ctor1 ctor2 w Hr i1 w1 w2.
    assert (setup_runs w1) as Hr1.
    { unfold w1. rewrite setup_exec by done. exact Hr. }
    assert (length (players w1) = S i1) as Hlen.
    { unfold w1. rewrite setup_exec by done. simpl. rewrite length_app. simpl. lia. }
    split; [|split].
    + unfold w2. rewrite setup_exec by done. unfold listeners_of. simpl.
      rewrite lookup_app_l by lia.
      unfold w1. rewrite setup_exec by done. simpl. by rewrite list_lookup_middle.
    + unfold w2. rewrite setup_exec by done. simpl. by rewrite Hlen.
    + rewrite (calls_intro _ _ _ (setup_trace ctor2 w1 Hr1)). unfold build_calls.
      repeat constructor; try done.
      apply Forall_app. split; [|by repeat constructor].
      apply Forall_fmap, Forall_forall. by intros cb _ k.
  - intros i j w Hl Hj.
    rewrite (calls_intro (fire i TracksChangedEvent) w
               (PlayerDispatch (ShakaController.createDOMEvent TracksChangedEvent) ::
                imap (λ index item,
                  QualitiesAdd (ShakaController.quality_of item index)
                    (Some (ShakaController.createDOMEvent TracksChangedEvent)))
                  (filter (λ item, ShakaController.has_height item) (variantTracks_of j w))))
      by (unfold exec; by rewrite (trackschanged_exec i j w Hl Hj)).
    change (qualities_added (?e :: ?l)) with (qualities_added l).
    rewrite (qualities_added_imap (λ index item, ShakaController.quality_of item index)).
    by rewrite has_height_filter.
Qed.

(** X21. Each [setup] that runs to its end adds a listener for [change]
    to the host's qualities and none is removed: after two setups a
    single change
    runs [#onUserQualityChange] twice, and the current instance is
    configured twice. *)
Theorem a_second_setup_doubles_the_change_listener ctor1 ctor2 w :
  setup_runs w →
  qualities_onChange (host w) = [] →
  let w2 := exec (ShakaController.setup ctor2) (exec (ShakaController.setup ctor1) w) in
  qualities_onChange (host w2) = [OnUserQualityChange; OnUserQualityChange]
  ∧ ∀ w' i q,
      qualities_onChange (host w') = [OnUserQualityChange; OnUserQualityChange] →
      controller_instance w' = Some i →
      qualities_auto (host w') = false →
      qualities_selected (host w') = Some q →
      calls qualities_change w'
      = calls ShakaController.onUserQualityChange w'
        ++ calls ShakaController.onUserQualityChange w'
      ∧ configured (calls qualities_change w')
        = [(i, ShakaController.abr_enabled false); (i, ShakaController.abr_enabled false)].
Proof.
  intros Hr Hc w2. split.
  { assert (setup_runs (exec (ShakaController.setup ctor1) w)) as Hr1.
    { rewrite setup_exec by done. exact Hr. }
    unfold w2. rewrite (setup_exec ctor2) by done. rewrite setup_exec by done.
    simpl. by rewrite Hc. }
  intros w' i q Hc' Hi Ha Hs.
  set (d := Configure i (ShakaController.abr_enabled false) ::
            match List.find (λ t, bool_decide (pretty <$> track_id t = Some (quality_id q)))
                    (variantTracks_of i w') with
            | Some track => [SelectVariantTrack i track]
            | None => []
            end).
  assert (calls ShakaController.onUserQualityChange w' = d) as ->.
  { apply calls_intro. unfold exec. by rewrite (onUserQualityChange_exec i q w' Hi Ha Hs). }
  assert (calls qualities_change w' = d ++ d) as ->.
  { apply calls_intro. unfold exec, qualities_change.
    unfold mbind at 1. unfold M_bind at 1. simpl. rewrite Hc'. simpl.
    unfold mbind, M_bind.
    pose proof (onUserQualityChange_exec i q w' Hi Ha Hs) as E1. fold d in E1.
    rewrite E1.
    pose proof (onUserQualityChange_exec i q (set_trace (trace w' ++ d) w') Hi Ha Hs) as E2.
    rewrite E2. simpl. fold d.
    by rewrite <- app_assoc. }
  split; [done|]. unfold d. by destruct (List.find _ _).
Qed.

(** X22. What a [setup] that runs to its end wires stays wired.  The
    player it builds has the
    listeners of [setup], and the host's qualities have the [enableAuto]
    hook and the one [change] listener, after any sequence of events,
    quality changes, calls of the hook, new tracks, moves of the host's
    state, callback registrations and calls of [loadSource]. *)
Theorem setup_wiring_is_kept ctor steps w :
  setup_runs w →
  qualities_onChange (host w) = [] →
  let w' := run steps (exec (ShakaController.setup ctor) w) in
  wired (length (players w)) w' ∧ hooked w'.
Proof.
  intros Hr Hc w'. split; [by apply wired_after_setup|by apply hooked_after_setup].
Qed.

End more_selection.

(** ** These theorems at work *)

Lemma loaded_dispatches_canplay_witness :
  wired 0 ready
  ∧ calls (fire (H:=browser) 0 LoadedEvent) ready
    = [PlayerDispatch (mkDOMEvent "shaka-loaded" (DetailEvent LoadedEvent) None);
       MediaDispatch video
         (mkDOMEvent "canplay" NoDetail
            (Some (mkDOMEvent "shaka-loaded" (DetailEvent LoadedEvent) None)))].
Proof.
  split; [exact ready_wired|].
  exact (loaded_dispatches_canplay (H:=browser) 0%nat ready ready_wired).
Defined.

Lemma errors_are_only_forwarded_witness :
  wired 0 ready
  ∧ fire (H:=browser) 0 (ErrorEvent {| shaka_error_message := "network" |}) ready
    = (Returned tt,
       set_trace
         (trace ready ++
          [PlayerDispatch
             (mkDOMEvent "shaka-error"
                (DetailEvent (ErrorEvent {| shaka_error_message := "network" |})) None)])
         ready).
Proof.
  split; [exact ready_wired|].
  exact (proj1 (errors_are_only_forwarded (H:=browser) 0%nat ready ready_wired)
           {| shaka_error_message := "network" |}).
Defined.

Lemma events_outlive_destroy_witness :
  wired 0 ready
  ∧ listeners_of 0 (exec ShakaController.destroy ready) = setup_listeners
  ∧ result (fire (H:=browser) 0 TracksChangedEvent) (exec ShakaController.destroy ready)
    = Threw TypeError.
Proof.
  split; [exact ready_wired|].
  destruct (events_outlive_destroy (H:=browser) 0%nat ready ready_wired) as (Hl & Hf & _).
  split; [exact Hl|]. unfold result. by rewrite Hf.
Defined.

Lemma onInstance_keeps_a_set_witness :
  NoDup (controller_callbacks fresh)
  ∧ controller_callbacks (exec (ShakaController.onInstance second) fresh) = [first; second]
  ∧ second ∉ controller_callbacks
      (exec (ShakaController.onInstance_dispose second)
         (exec (ShakaController.onInstance second) fresh)).
Proof.
  split; [exact fresh_NoDup|]. split; [reflexivity|].
  exact (proj1 (proj2 (proj2 (proj2 (proj2
     (onInstance_keeps_a_set second fresh fresh_NoDup)))))).
Defined.

Lemma fresh_with_source_runs : setup_runs (H:=browser) fresh_with_source.
Proof. split; [discriminate|]. constructor. Defined.

Lemma new_runs : setup_runs (H:=browser) (ShakaProvider.new (H:=browser) (Some video) ctx).
Proof. split; [discriminate|]. constructor. Defined.

Lemma config_is_read_by_setup_witness :
  setup_runs (H:=browser) fresh
  ∧ configured
      (calls (ShakaController.setup (H:=browser) windowPlayer)
         (exec (ShakaProvider.set_config (ShakaController.abr_enabled false)) fresh))
    = [(0%nat, ShakaController.abr_enabled false)].
Proof.
  split; [exact fresh_runs|].
  exact (proj2 (proj2 (proj2
    (config_is_read_by_setup (H:=browser) (ShakaController.abr_enabled false)
       windowPlayer fresh))) fresh_runs).
Defined.

Lemma host_sees_the_load_in_order_witness :
  setup_runs (H:=browser) fresh
  ∧ dispatched_types (calls (ShakaProvider.setup (H:=browser)) fresh)
    = ["shaka-lib-load-start"; "shaka-lib-loaded"; "shaka-instance"].
Proof.
  split; [exact fresh_runs|].
  exact (host_sees_the_load_in_order (H:=browser) fresh fresh_runs).
Defined.

Lemma setup_loads_the_current_source_witness :
  setup_runs (H:=browser) fresh_with_source
  ∧ resolution_order (H:=browser) (provider_library fresh_with_source) = Some windowPlayer
  ∧ loaded_urls (calls (ShakaProvider.setup (H:=browser)) fresh_with_source)
    = [(0%nat, "https://example.org/a.m3u8")].
Proof.
  assert (resolution_order (H:=browser) (provider_library fresh_with_source)
          = Some windowPlayer) as Hres by reflexivity.
  split; [exact fresh_with_source_runs|]. split; [exact Hres|].
  exact (proj1 (setup_loads_the_current_source (H:=browser) windowPlayer
                  fresh_with_source fresh_with_source_runs Hres)).
Defined.

Lemma undefined_library_is_silent_witness :
  provider_library without_library = LibUndefined
  ∧ exec (ShakaProvider.setup (H:=browser)) without_library
    = set_trace (trace without_library ++ [SuperSetup]) without_library.
Proof.
  split; [reflexivity|].
  exact (undefined_library_is_silent (H:=browser) without_library eq_refl).
Defined.

Lemma throwing_callback_by_path_witness :
  ShakaLibLoader.startLoading (H:=browser) (provider_library fresh) failing_callback fresh
  = (Returned None,
     exec (ShakaLibLoader.onLoadError (H:=browser) (Error "setup failed"))
       (set_trace
          (trace fresh ++
           [PlayerDispatch (mkDOMEvent "shaka-lib-load-start" NoDetail None);
            PlayerDispatch (mkDOMEvent "shaka-lib-loaded" (DetailCtor windowPlayer) None)])
          fresh))
  ∧ ShakaLibLoader.startLoading (H:=browser) (LibObject namespace) failing_callback fresh
    = (Threw (Error "setup failed"),
       set_trace
         (trace fresh ++
          [PlayerDispatch (mkDOMEvent "shaka-lib-load-start" NoDetail None);
           PlayerDispatch
             (mkDOMEvent "shaka-lib-loaded" (DetailCtor (CtorRef "shaka.Player")) None)])
         fresh).
Proof.
  split.
  - exact (throwing_callback_by_path (H:=browser) (provider_library fresh)
             failing_callback windowPlayer (Error "setup failed") fresh _ eq_refl eq_refl).
  - exact (throwing_callback_by_path (H:=browser) (LibObject namespace)
             failing_callback (CtorRef "shaka.Player") (Error "setup failed") fresh _
             eq_refl eq_refl).
Defined.

Lemma load_needs_a_video_in_dev_witness :
  __SERVER__ (Platform:=browser) = false
  ∧ ShakaProviderLoader.load (H:=browser) None ctx
    = inl (Error "[vidstack] `<video>` element was not found - did you forget to include `<media-provider>`?")
  ∧ ShakaProviderLoader.load (H:=dash_only) None ctx
    = inr (ShakaProvider.new (H:=dash_only) None ctx).
Proof.
  split; [reflexivity|]. split.
  - exact (proj1 (load_needs_a_video_in_dev (H:=browser) ctx eq_refl) eq_refl).
  - exact (proj1 (proj2 (load_needs_a_video_in_dev (H:=dash_only) ctx eq_refl)) eq_refl).
Defined.

Lemma setup_wiring_is_kept_witness :
  setup_runs (H:=browser) (ShakaProvider.new (H:=browser) (Some video) ctx)
  ∧ qualities_onChange (host (ShakaProvider.new (H:=browser) (Some video) ctx)) = []
  ∧ wired 0
      (run (H:=browser)
         [GivesTracks 0 tracks; Fires 0 TracksChangedEvent;
          HostMoves true None false (Some quality3) getById; QualitiesChange;
          RegistersCallback first; RegistersCallback thrower;
          LoadsSource hls_src None; CallsEnableAuto]
         (exec (ShakaController.setup (H:=browser) windowPlayer)
            (ShakaProvider.new (H:=browser) (Some video) ctx))).
Proof.
  split; [exact new_runs|]. split; [reflexivity|].
  exact (proj1 (setup_wiring_is_kept (H:=browser) windowPlayer
     [GivesTracks 0 tracks; Fires 0 TracksChangedEvent;
      HostMoves true None false (Some quality3) getById; QualitiesChange;
      RegistersCallback first; RegistersCallback thrower;
      LoadsSource hls_src None; CallsEnableAuto]
     (ShakaProvider.new (H:=browser) (Some video) ctx) new_runs eq_refl)).
Defined.

Lemma handlers_follow_the_current_instance_witness :
  listeners_of 0 set_up_twice = setup_listeners
  ∧ controller_instance set_up_twice = Some 1%nat
  ∧ qualities_added (calls (fire (H:=browser) 0 TracksChangedEvent) set_up_twice)
    = [quality3; quality_without_id; quality5].
Proof.
  assert (listeners_of 0 set_up_twice = setup_listeners) as Hl by reflexivity.
  split; [exact Hl|]. split; [reflexivity|].
  exact (proj2 (handlers_follow_the_current_instance (H:=browser))
           0%nat 1%nat set_up_twice Hl eq_refl).
Defined.

Lemma a_second_setup_doubles_the_change_listener_witness :
  setup_runs (H:=browser) (ShakaProvider.new (H:=browser) (Some video) ctx)
  ∧ qualities_onChange (host (ShakaProvider.new (H:=browser) (Some video) ctx)) = []
  ∧ configured (calls qualities_change set_up_twice)
    = [(1%nat, ShakaController.abr_enabled false);
       (1%nat, ShakaController.abr_enabled false)].
Proof.
  split; [exact new_runs|]. split; [reflexivity|].
  destruct (a_second_setup_doubles_the_change_listener (H:=browser)
              windowPlayer (CtorRef "second-player")
              (ShakaProvider.new (H:=browser) (Some video) ctx) new_runs eq_refl)
    as [_ Htwice].
  exact (proj2 (Htwice set_up_twice 1%nat quality3 eq_refl eq_refl eq_refl eq_refl)).
Defined.

Lemma playing_ids_NoDup : NoDup (omap track_id (variantTracks_of 0 playing)).
Proof.
  apply (bool_decide_unpack (NoDup (omap track_id (variantTracks_of 0 playing)))).
  vm_compute. exact I.
Defined.

Lemma playing_ids_with_height_NoDup :
  NoDup (omap track_id
           (filter (λ item, track_height item ≠ IsNull) (variantTracks_of 0 playing))).
Proof.
  apply (bool_decide_unpack
           (NoDup (omap track_id
              (filter (λ item, track_height item ≠ IsNull) (variantTracks_of 0 playing))))).
  vm_compute. exact I.
Defined.

Lemma qualities_get_distinct_ids_witness :
  wired 0 playing
  ∧ NoDup (quality_id <$>
             qualities_added (calls (fire (H:=browser) 0 TracksChangedEvent) playing)).
Proof.
  split; [exact playing_wired|].
  exact (qualities_get_distinct_ids (H:=browser) 0%nat playing playing_wired
           playing_ids_with_height_NoDup).
Defined.

Lemma first_track_in_playing : track (Some 3) (IsValue 720) ∈ variantTracks_of 0 playing.
Proof. apply list_elem_of_here. Defined.

Lemma selecting_a_quality_selects_its_track_witness :
  hooked playing
  ∧ calls qualities_change playing
    = [Configure 0 ({[ "abr" := CObj {[ "enabled" := CBool false ]} ]} : Config);
       SelectVariantTrack 0 (track (Some 3) (IsValue 720))].
Proof.
  split; [exact playing_hooked|].
  exact (selecting_a_quality_selects_its_track 0%nat playing (track (Some 3) (IsValue 720))
           3 quality3 playing_hooked eq_refl eq_refl eq_refl playing_ids_NoDup
           first_track_in_playing eq_refl eq_refl).
Defined.

Lemma playing_without_id_hooked : hooked playing_without_id.
Proof. split; reflexivity. Defined.

Lemma a_quality_without_track_id_selects_nothing_witness :
  hooked playing_without_id
  ∧ calls qualities_change playing_without_id
    = [Configure 0 ({[ "abr" := CObj {[ "enabled" := CBool false ]} ]} : Config)].
Proof.
  split; [exact playing_without_id_hooked|].
  exact (a_quality_without_track_id_selects_nothing 0%nat playing_without_id
           quality_without_id "1" playing_without_id_hooked
           eq_refl eq_refl eq_refl eq_refl).
Defined.

Lemma load_failure_never_calls_back_witness :
  resolution_order (H:=server) (provider_library on_server) = None
  ∧ players (exec (ShakaProvider.setup (H:=server)) on_server) = players on_server
  ∧ ∃ error,
      calls (ShakaProvider.setup (H:=server)) on_server
      = [SuperSetup;
         PlayerDispatch (mkDOMEvent "shaka-lib-load-start" NoDetail None);
         PlayerDispatch (mkDOMEvent "shaka-lib-load-error" (DetailError error) None);
         Notify "error" (NotifyError (error_message error) 4 (Some error)) None].
Proof.
  assert (resolution_order (H:=server) (provider_library on_server) = None) as Hres
    by reflexivity.
  split; [exact Hres|].
  destruct (load_failure_never_calls_back (H:=server) on_server Hres)
    as (_ & Hp & _ & _ & Hcalls).
  split; [exact Hp|]. apply Hcalls. discriminate.
Defined.
